(** * Normal-distribution widget: retrieval engine and statistics module

    A shallow embedding of [services/data.service.ts], [utils/statistics.ts]
    and the entry of [services/chart.service.ts], with the properties the
    design document states about them.

    Conventions of the embedding.
    - A JavaScript [number] that carries a measurement is an IEEE-754
      binary64 value ([spec_float] with [prec = 53], [emax = 1024]); a
      [number] that is a count, an offset, an index or an epoch time is an
      integer of [Z] (exact in the safe-integer range the program works in).
    - A wire timestamp (ISO-8601, UTC, second precision) is represented by
      the whole number of seconds since the epoch that it denotes.
    - An awaited call is a function of the backend; an error thrown (or a
      promise rejected) is the [Throws] branch of [outcome].
    - Progress callbacks only notify the host; they are left out. *)

From Stdlib Require Import ZArith List Bool Lia Reals Lra.
From Stdlib Require Import Floats.SpecFloat.
From Equations Require Import Equations.
From stdpp Require Import gmap strings list sorting.

Local Open Scope Z_scope.

(** ** JavaScript numbers *)

Module F64.

Definition prec : Z := 53.
Definition emax : Z := 1024.

Definition float : Type := spec_float.

Definition add : float -> float -> float := SFadd prec emax.
Definition sub : float -> float -> float := SFsub prec emax.
Definition mul : float -> float -> float := SFmul prec emax.
Definition div : float -> float -> float := SFdiv prec emax.
Definition sqrt : float -> float := SFsqrt prec emax.
Definition leb : float -> float -> bool := SFleb.
Definition ltb : float -> float -> bool := SFltb.

(** The binary64 value of an integer literal (or of [array.length]). *)
Definition ofZ (z : Z) : float := binary_normalize prec emax z 0 false.

Definition NaN : float := S754_nan.
Definition Infinity : float := S754_infinity false.

(** [Math.PI], the binary64 value 0x400921FB54442D18. *)
Definition PI : float := S754_finite false 7074237752028440 (-51).

(** The global [isNaN] on a number. *)
Definition isNaN (x : float) : bool :=
  match x with S754_nan => true | _ => false end.

Definition isFinite (x : float) : bool :=
  match x with S754_zero _ | S754_finite _ _ _ => true | _ => false end.

(** The binary64 value nearest to the rational [n / d] ([n], [d]
    positive), ties to even: what reading a decimal literal yields. *)
Definition ofRatio (s : bool) (n d : positive) : float :=
  let '(mz, ez, lz) := SFdiv_core_binary prec emax (Zpos n) 0 (Zpos d) 0 in
  binary_round_aux prec emax s mz ez lz.

(** [parseFloat(x.toFixed(digits))] for [0 <= digits <= 100].
    [toFixed] prints [NaN] and the infinities by name, prints a
    magnitude of at least 1e21 in full precision, and otherwise prints
    the integer [n] nearest to [|x| * 10^digits] (the larger one on a
    tie) with the decimal point [digits] places from the right and the
    sign of [x] in front; [parseFloat] reads that text back. *)
Definition roundDecimals (x : float) (digits : Z) : float :=
  match x with
  | S754_nan => S754_nan
  | S754_infinity s => S754_infinity s
  | S754_zero _ => S754_zero false
  | S754_finite s m e =>
      if leb (ofZ (10 ^ 21)) (S754_finite false m e) then x
      else
        let scale := 10 ^ digits in
        let n :=
          if 0 <=? e then Zpos m * 2 ^ e * scale
          else (2 * Zpos m * scale + 2 ^ (- e)) / (2 * 2 ^ (- e)) in
        match n, scale with
        | Zpos pn, Zpos ps => ofRatio s pn ps
        | _, _ => S754_zero s
        end
  end.

End F64.

(** ** The arithmetic the statistics module is written in

    [utils/statistics.ts] uses [+ - * /], [Math.sqrt], [Math.exp],
    [Math.PI], [<=] and [>] on numbers.  The functions below are written
    once over that interface; the program runs them at binary64. *)

Record NumOps : Type := {
  num : Type;
  n_add : num -> num -> num;
  n_sub : num -> num -> num;
  n_mul : num -> num -> num;
  n_div : num -> num -> num;
  n_sqrt : num -> num;
  n_exp : num -> num;
  n_pi : num;
  n_ofZ : Z -> num;
  n_leb : num -> num -> bool;
  n_ltb : num -> num -> bool
}.

(** Binary64, the arithmetic of the program.  [Math.exp] is
    implementation-approximated in ECMAScript, so it is a parameter. *)
Definition f64_ops (Math_exp : F64.float -> F64.float) : NumOps := {|
  num := F64.float;
  n_add := F64.add;
  n_sub := F64.sub;
  n_mul := F64.mul;
  n_div := F64.div;
  n_sqrt := F64.sqrt;
  n_exp := Math_exp;
  n_pi := F64.PI;
  n_ofZ := F64.ofZ;
  n_leb := F64.leb;
  n_ltb := F64.ltb
|}.

(** [{ time: number; value: number }], the points handed to the
    statistics module. *)
Record SamplePoint (N : Type) : Type := { time : Z; value : N }.
Arguments time {N} _.
Arguments value {N} _.

(** ** utils/statistics.ts *)

Declare Scope stat_scope.

Module Statistics.
Section WithOps.

Variable ops : NumOps.

Notation "x + y" := (n_add ops x y) : stat_scope.
Notation "x - y" := (n_sub ops x y) : stat_scope.
Notation "x * y" := (n_mul ops x y) : stat_scope.
Notation "x / y" := (n_div ops x y) : stat_scope.
Notation "# z" := (n_ofZ ops z) (at level 5, format "# z") : stat_scope.
Local Open Scope stat_scope.

Let num : Type := num ops.

Record Summary : Type := { mean : num; standardDeviation : num }.

(** [Math.pow(x, 2)], taken as the rounded square. *)
Definition pow2 (x : num) : num := x * x.

(** [data.reduce((acc, d) => acc + d.value, 0) / n] *)
Definition meanOf (data : list (SamplePoint num)) : num :=
  fold_left (fun acc d => acc + value d) data #0
  / #(Z.of_nat (length data)).

(** [data.reduce((acc, d) => acc + Math.pow(d.value - mean, 2), 0) / n] *)
Definition varianceOf (data : list (SamplePoint num)) : num :=
  let mean := meanOf data in
  fold_left (fun acc d => acc + pow2 (value d - mean)) data #0
  / #(Z.of_nat (length data)).

Definition calculateStatistics (data : list (SamplePoint num)) : Summary :=
  let mean := meanOf data in
  let variance := varianceOf data in
  let standardDeviation := n_sqrt ops variance in
  {| mean := mean; standardDeviation := standardDeviation |}.

Definition normalDistribution (x mean standardDeviation : num) : num :=
  (#1 / (standardDeviation * n_sqrt ops (#2 * n_pi ops)))
  * n_exp ops ((#(-1) / #2) * pow2 ((x - mean) / standardDeviation)).

(** The [for] loop of [generateNormalDistributionData]; one unit of
    fuel per test of the loop condition.  [None]: the fuel ran out with
    the condition still true. *)
Fixpoint curveLoop (fuel : nat) (mean standardDeviation dataLength binSize : num)
    (x : num) (xValues yValues : list num) (maxYDistrib : num)
    : option (list num * list num * num) :=
  match fuel with
  | O => None
  | S fuel' =>
      if n_leb ops x (mean + #5 * standardDeviation) then
        let y := normalDistribution x mean standardDeviation
                 * dataLength * binSize in
        curveLoop fuel' mean standardDeviation dataLength binSize
          (x + binSize) (xValues ++ [x]) (yValues ++ [y])
          (if n_ltb ops maxYDistrib y then y else maxYDistrib)
      else Some (xValues, yValues, maxYDistrib)
  end.

Definition generateNormalDistributionData (fuel : nat)
    (mean standardDeviation dataLength binSize maxY : num)
    : option (list (num * num)) :=
  if n_leb ops dataLength #1 then Some []
  else
    match curveLoop fuel mean standardDeviation dataLength binSize
            (mean - #5 * standardDeviation) [] [] #0 with
    | None => None
    | Some (xValues, yValues, maxYDistrib) =>
        let scaleRatio := maxY / maxYDistrib in
        let scaledYValues := map (fun y => y * scaleRatio) yValues in
        Some (zip xValues scaledYValues)
    end.

End WithOps.

Arguments mean {ops} _.
Arguments standardDeviation {ops} _.

End Statistics.

(** ** Errors and awaited results *)

Inductive JsError : Type :=
  | SyntaxError            (* [res.json()] on a body that is not JSON *)
  | TypeError              (* a property read on [null] or [undefined] *)
  | RangeError             (* an invalid date or digit count *)
  | NoDataAvailable        (* [Error('No data available')] *)
  | NotEnoughData (mean : F64.float).
                           (* [Error(`Not enough data available, mean = ...`)] *)

Inductive outcome (A : Type) : Type :=
  | Returns (a : A)
  | Throws (e : JsError).
Arguments Returns {A} _.
Arguments Throws {A} _.

(** Sequencing of awaited calls: [x ← c; k] runs [k] on the value of
    [c], and an error of [c] ends the computation. *)
#[export] Instance outcome_bind : MBind outcome := fun A B k c =>
  match c with
  | Returns a => k a
  | Throws e => Throws e
  end.
#[export] Instance outcome_ret : MRet outcome := fun A a => Returns a.

(** ** services/data.service.ts *)

Module DataService.

(** *** Wire data *)

(** An ISO-8601 UTC timestamp with second precision, [YYYY-MM-DDTHH:MM:SSZ]. *)
Record IsoTime : Type := { epochSeconds : Z }.

(** [Date.parse] of such a timestamp, in epoch milliseconds. *)
Definition Date_parse (t : IsoTime) : Z := 1000 * epochSeconds t.

(** The largest magnitude of a valid [Date] time value. *)
Definition maxTimeValue : Z := 8640000000000000.

(** [new Date(ms).toISOString().split('.')[0] + 'Z']: the millisecond
    field is cut off; [toISOString] throws on an invalid date. *)
Definition _toIXONISOString (milliSeconds : Z) : outcome IsoTime :=
  if Z.abs milliSeconds <=? maxTimeValue
  then Returns {| epochSeconds := milliSeconds / 1000 |}
  else Throws RangeError.

(** [type Metric = { time: string; values: { [key: string]: number } }] *)
Record Metric (V : Type) : Type := {
  m_time : IsoTime;
  m_values : gmap string V
}.
Arguments m_time {V} _.
Arguments m_values {V} _.

(** A point of the count query: [values] may be absent. *)
Record CountPoint : Type := { c_values : option (gmap string Z) }.

(** A parsed response body [{ data?: { points?: [...] } }].  [JsonNull]
    is the JSON text [null]; any other JSON value is a [JsonValue],
    with [data] absent when the value has no such member. *)
Record DataField (P : Type) : Type := { points : option (list P) }.
Arguments points {P} _.

Inductive Body (P : Type) : Type :=
  | JsonNull
  | JsonValue (data : option (DataField P)).
Arguments JsonNull {P}.
Arguments JsonValue {P} _.

(** What [fetch] resolves to: [json = None] when the body is not JSON,
    so that [res.json()] rejects. *)
Record Response (P : Type) : Type := {
  status : Z;
  json : option (Body P)
}.
Arguments status {P} _.
Arguments json {P} _.

(** *** Requests *)

Record Query : Type := {
  q_ref : string;
  q_limit : option Z;
  q_offset : option Z;
  q_order : option string;
  q_postAggr : option string;
  q_step : option Z
}.

Record TagQuery : Type := {
  t_slug : string;
  t_preAggr : string;
  t_queries : list Query
}.

Record RequestBody : Type := {
  r_start : IsoTime;
  r_end : IsoTime;
  r_timeZone : string;
  r_source : string;
  r_tags : list TagQuery
}.

(** [this.context]: the time range and the configured metric's tag. *)
Record Context : Type := {
  timeRange_from : Z;
  timeRange_to : Z;
  metric : option string
}.

(** The remote side.  A page request may be answered differently each
    time it is sent again; [sent] counts how often the same request was
    sent before.  [resolve_source] stands for the identity lookups
    ([_getAgent], [_getDataSources], [_getTags] and the filter on
    them), an external collaborator. *)
Record Backend (V : Type) : Type := {
  count_query : RequestBody -> Response CountPoint;
  page_query : RequestBody -> forall sent : nat, Response (Metric V);
  backfill_query : RequestBody -> Response (Metric V);
  resolve_source : string -> outcome (option string)
}.
Arguments count_query {V} _ _.
Arguments page_query {V} _ _ _.
Arguments backfill_query {V} _ _.
Arguments resolve_source {V} _ _.

(** What a page fetch does to the outside world, in order. *)
Inductive Event : Type :=
  | Fetched (request : RequestBody) (answer : Z)
  | Waited (ms : Z).

Definition queryLimit : Z := 5000.

(** Both ends of the time range are valid [Date] time values. *)
Definition validWindow (context : Context) : Prop :=
  Z.abs (timeRange_from context) <= maxTimeValue
  /\ Z.abs (timeRange_to context) <= maxTimeValue.

(** [Math.ceil(a / b)] on integers, [b > 0]. *)
Definition ceilDiv (a b : Z) : Z := - ((- a) / b).

Section Engine.

Context {V : Type}.
Variable backend : Backend V.
Variable context : Context.

(** The JSON body every query of the engine is built on. *)
Definition requestBody (start end_ : IsoTime) (sourceId : string)
    (tags : list TagQuery) : RequestBody :=
  {| r_start := start; r_end := end_; r_timeZone := "UTC";
     r_source := sourceId; r_tags := tags |}.

(** The body of a page request of [_fetchRawDataPage]. *)
Definition pageRequest (start end_ : IsoTime) (sourceId tagSlug : string)
    (offset limit : Z) : RequestBody :=
  requestBody start end_ sourceId
    [ {| t_slug := tagSlug; t_preAggr := "raw";
         t_queries := [ {| q_ref := tagSlug; q_limit := Some limit;
                           q_offset := Some offset;
                           q_order := Some "asc";
                           q_postAggr := None;
                           q_step := None |} ] |} ].

(** *** _getLastPointOfPreviousPeriod *)
Definition _getLastPointOfPreviousPeriod (sourceId : string)
    (tagSlugs : list string) : outcome (option (Metric V)) :=
  let initialUnixTimestamp := 0 in
  start ← _toIXONISOString initialUnixTimestamp;
  end_ ← _toIXONISOString (timeRange_from context);
  let body := requestBody start end_ sourceId
    (map (fun slug =>
       {| t_slug := slug; t_preAggr := "raw";
          t_queries := [ {| q_ref := slug; q_limit := Some 1;
                            q_offset := None; q_order := None;
                            q_postAggr := Some "raw";
                            q_step := None |} ] |}) tagSlugs) in
  match json (backfill_query backend body) with
  | None => Throws SyntaxError
  | Some JsonNull => Throws TypeError
  | Some (JsonValue None) => Throws TypeError
  | Some (JsonValue (Some d)) =>
      match points d with
      | None => Throws TypeError
      | Some [] => Returns None
      | Some (lastPointOfPreviousPeriod :: _) =>
          Returns (Some {| m_time := end_;
                           m_values := m_values lastPointOfPreviousPeriod |})
      end
  end.

(** *** _getAllRawMetrics (sequential strategy)

    The function calls itself once per page; [fuel] bounds the
    number of calls, and [None] means it was used up. *)
Fixpoint _getAllRawMetrics (fuel : nat) (sourceId : string)
    (tagSlugs : list string) (hasNext : bool) (offset : Z)
    (metrics : list (Metric V)) : option (outcome (list (Metric V))) :=
  match fuel with
  | O => None
  | S fuel' =>
      if negb hasNext then
        Some (lastPointOfPreviousPeriod ←
                _getLastPointOfPreviousPeriod sourceId tagSlugs;
              match lastPointOfPreviousPeriod with
              | Some p => Returns (metrics ++ [p])
              | None => Returns metrics
              end)
      else
        match _toIXONISOString (timeRange_from context),
              _toIXONISOString (timeRange_to context) with
        | Throws e, _ => Some (Throws e)
        | _, Throws e => Some (Throws e)
        | Returns start, Returns end_ =>
            let body := requestBody start end_ sourceId
              (map (fun slug =>
                 {| t_slug := slug; t_preAggr := "raw";
                    t_queries := [ {| q_ref := slug;
                                      q_limit := Some queryLimit;
                                      q_offset := Some offset;
                                      q_order := None;
                                      q_postAggr := None;
                                      q_step := None |} ] |}) tagSlugs) in
            match json (page_query backend body 0) with
            | None => Some (Throws SyntaxError)
            | Some JsonNull => Some (Throws TypeError)
            | Some (JsonValue None) => Some (Throws TypeError)
            | Some (JsonValue (Some d)) =>
                match points d with
                | None => Some (Throws TypeError)
                | Some page =>
                    _getAllRawMetrics fuel' sourceId tagSlugs
                      (Z.of_nat (length page) =? queryLimit)
                      (offset + queryLimit)
                      (metrics ++ page)
                end
            end
        end
  end.

(** *** _getTotalCount *)

(** [response.data?.points?.[0]?.values?.[tagSlug]]; [None] is
    [undefined]. *)
Definition countMember (data : option (DataField CountPoint))
    (tagSlug : string) : option Z :=
  d ← data; ps ← points d; p ← head ps; vs ← c_values p; vs !! tagSlug.

Definition _getTotalCount (sourceId tagSlug : string) : outcome Z :=
  start ← _toIXONISOString (timeRange_from context);
  end_ ← _toIXONISOString (timeRange_to context);
  let timeRangeDurationSeconds :=
    ceilDiv (timeRange_to context - timeRange_from context) 1000 in
  let body := requestBody start end_ sourceId
    [ {| t_slug := tagSlug; t_preAggr := "raw";
         t_queries := [ {| q_ref := tagSlug; q_limit := None;
                           q_offset := None; q_order := None;
                           q_postAggr := Some "count";
                           q_step := Some timeRangeDurationSeconds |} ] |} ] in
  match json (count_query backend body) with
  | None => Throws SyntaxError
  | Some JsonNull => Throws TypeError
  | Some (JsonValue data) =>
      (* const count = ... || 0 *)
      match countMember data tagSlug with
      | Some c => Returns (if c =? 0 then 0 else c)
      | None => Returns 0
      end
  end.

(** *** _fetchRawDataPage

    [sent] is how often this page was requested before, the only
    state of the network that matters to the function.  The result
    comes with the events of the call, in order. *)
Equations _fetchRawDataPage (sourceId tagSlug : string)
    (offset limit retries : Z) (sent : nat)
    : list Event * outcome (list (Metric V))
    by wf (Z.to_nat retries) lt :=
_fetchRawDataPage sourceId tagSlug offset limit retries sent
  with _toIXONISOString (timeRange_from context),
       _toIXONISOString (timeRange_to context) := {
  | Throws e, _ => ([], Throws e)
  | Returns _, Throws e => ([], Throws e)
  | Returns start, Returns end_
      with Equations.Prop.Logic.inspect ((status (page_query backend
              (pageRequest start end_ sourceId tagSlug offset limit) sent)
              =? 429) && (0 <? retries)) := {
      | exist _ true rateLimited =>
          let backoffMs := (4 - retries) * 1000 in
          let '(events, result) :=
            _fetchRawDataPage sourceId tagSlug offset limit
              (retries - 1) (S sent) in
          (Fetched (pageRequest start end_ sourceId tagSlug offset limit) 429
             :: Waited backoffMs :: events, result)
      | exist _ false _ =>
          let request := pageRequest start end_ sourceId tagSlug offset limit in
          let response := page_query backend request sent in
          ([Fetched request (status response)],
           match json response with
           | None => Throws SyntaxError
           | Some JsonNull => Throws TypeError
           | Some (JsonValue data) =>
               (* data.data?.points || [] *)
               Returns (default [] (d ← data; points d))
           end) } }.
Next Obligation.
  intros sourceId tagSlug offset limit retries sent _ start end_
    rateLimited backoffMs.
  apply andb_prop in rateLimited as [_ positive].
  apply Z.ltb_lt in positive. lia.
Qed.

End Engine.

(** *** _fetchWithConcurrencyLimit

    The function is a coroutine: its loop runs until it awaits, and
    the tasks it started settle in between, in an order the network
    decides.  Its executions are the runs of a transition system whose
    state holds the loop's position and its two shared objects, the
    [results] array and the [executing] map.  The promise stored under
    key [i] is the wrapper of task [i], so the map is given by its
    keys.  A task may settle at any point after it was started; this
    covers every order the event loop can produce. *)
Section Scheduler.

Context {T : Type}.
Variable tasks : list (unit -> outcome T).
Variable maxConcurrent : Z.

(** Where the body of the function stands. *)
Inductive Control : Type :=
  | AtLoop (i : nat)
      (* at the test [i < tasks.length] *)
  | AwaitRace (i : nat) (snapshot : list nat)
      (* in iteration [i], at [await Promise.race(snapshot)] *)
  | AwaitAll (snapshot : list nat)
      (* at [await Promise.all(snapshot)] *)
  | Finished (result : outcome (list (option T))).
      (* returned [results], or rejected *)

Record State : Type := {
  control : Control;
  executing : gset nat;
  results : list (option T);          (* [None]: an empty slot *)
  settled : list (nat * option JsError);
      (* the wrappers settled so far, oldest first, with the error
         of a rejected one *)
  started : list nat
      (* the calls [task()] made so far, oldest first *)
}.

Inductive Step : Type :=
  | MainFlow               (* the body of the function moves on *)
  | Settle (index : nat).  (* the wrapper of task [index] settles *)

Definition initial : State :=
  {| control := AtLoop 0;
     executing := ∅;
     results := replicate (length tasks) None;
     settled := [];
     started := [] |}.

(** The first wrapper of [snapshot] to have settled. *)
Definition firstSettled (snapshot : list nat)
    (log : list (nat * option JsError)) : option (nat * option JsError) :=
  find (fun p => bool_decide (p.1 ∈ snapshot)) log.

(** The first wrapper of [snapshot] to have been rejected. *)
Definition firstRejected (snapshot : list nat)
    (log : list (nat * option JsError)) : option JsError :=
  match find (fun p => bool_decide (p.1 ∈ snapshot) && bool_decide (is_Some p.2)) log with
  | Some (_, e) => e
  | None => None
  end.

Definition allSettled (snapshot : list nat)
    (log : list (nat * option JsError)) : bool :=
  forallb (fun j => bool_decide (j ∈ log.*1)) snapshot.

Definition withControl (c : Control) (s : State) : State :=
  {| control := c; executing := executing s; results := results s;
     settled := settled s; started := started s |}.

(** One transition; [None] when the step is not enabled. *)
Definition step (ev : Step) (s : State) : option State :=
  match ev with
  | MainFlow =>
      match control s with
      | AtLoop i =>
          match tasks !! i with
          | Some task =>
              (* the wrapper calls [task()], then [executing.set] *)
              let executing' := {[ i ]} ∪ executing s in
              Some {| control :=
                        if maxConcurrent <=? Z.of_nat (size executing')
                        then AwaitRace i (elements executing')
                        else AtLoop (S i);
                      executing := executing';
                      results := results s;
                      settled := settled s;
                      started := started s ++ [i] |}
          | None =>
              Some (withControl (AwaitAll (elements (executing s))) s)
          end
      | AwaitRace i snapshot =>
          match firstSettled snapshot (settled s) with
          | Some (_, None) => Some (withControl (AtLoop (S i)) s)
          | Some (_, Some e) => Some (withControl (Finished (Throws e)) s)
          | None => None
          end
      | AwaitAll snapshot =>
          match firstRejected snapshot (settled s) with
          | Some e => Some (withControl (Finished (Throws e)) s)
          | None =>
              if allSettled snapshot (settled s)
              then Some (withControl (Finished (Returns (results s))) s)
              else None
          end
      | Finished _ => None
      end
  | Settle index =>
      if bool_decide (index ∈ executing s) then
        match tasks !! index with
        | Some task =>
            match task () with
            | Returns result =>
                (* [results[index] = result], then the [finally] *)
                Some {| control := control s;
                        executing := executing s ∖ {[ index ]};
                        results := <[ index := Some result ]> (results s);
                        settled := settled s ++ [(index, None)];
                        started := started s |}
            | Throws e =>
                Some {| control := control s;
                        executing := executing s ∖ {[ index ]};
                        results := results s;
                        settled := settled s ++ [(index, Some e)];
                        started := started s |}
            end
        | None => None
        end
      else None
  end.

(** A step that is enabled whenever the function has not finished:
    the body if it can move, else the pending task with the least
    index settles. *)
Definition fallback (s : State) : Step :=
  match step MainFlow s with
  | Some _ => MainFlow
  | None =>
      match elements (executing s) with
      | j :: _ => Settle j
      | [] => MainFlow
      end
  end.

Definition isFinished (s : State) : bool :=
  match control s with Finished _ => true | _ => false end.

(** The run a scheduling policy [pick] produces.  A pick that is not
    enabled is replaced by [fallback]. *)
Fixpoint run (fuel : nat) (pick : State -> Step) (s : State) : State :=
  match fuel with
  | O => s
  | S fuel' =>
      if isFinished s then s
      else
        match step (pick s) s with
        | Some s' => run fuel' pick s'
        | None =>
            match step (fallback s) s with
            | Some s' => run fuel' pick s'
            | None => s
            end
        end
  end.

(** Every task is started once, settles once, and makes the body wait
    at most once. *)
Definition enoughSteps : nat := 3 * length tasks + 2.

(** What the call returns under the policy [pick]; [None] if the run
    has not finished. *)
Definition _fetchWithConcurrencyLimit (pick : State -> Step)
    : option (outcome (list (option T))) :=
  match control (run enoughSteps pick initial) with
  | Finished result => Some result
  | _ => None
  end.

(** The slot a task is due: its result when it fulfils, and an empty
    slot when it fails. *)
Definition slotOf (task : unit -> outcome T) : option T :=
  match task () with
  | Returns v => Some v
  | Throws _ => None
  end.

(** The states an execution can be in, whatever the order in which
    the tasks settle. *)
Inductive reachable : State -> Prop :=
  | reachable_initial : reachable initial
  | reachable_step (s : State) (ev : Step) (s' : State) :
      reachable s -> step ev s = Some s' -> reachable s'.

(** The steps an execution has left, at most. *)
Definition potential (s : State) : nat :=
  match control s with
  | AtLoop i => 3 * (length tasks - i) + 2
  | AwaitRace i _ => 3 * (length tasks - S i) + 3
  | AwaitAll _ => 1
  | Finished _ => 0
  end + size (executing s).

(** What holds of every reachable state. *)
Record Invariant (s : State) : Prop := {
  inv_started : started s = seq 0 (length (started s));
  inv_started_le : (length (started s) <= length tasks)%nat;
  inv_executing : forall j,
    j ∈ executing s <-> (j < length (started s))%nat /\ j ∉ (settled s).*1;
  inv_settled : forall j,
    j ∈ (settled s).*1 -> (j < length (started s))%nat;
  inv_results_length : length (results s) = length tasks;
  inv_fulfilled : forall j,
    (j, None) ∈ settled s ->
    exists task v, tasks !! j = Some task /\ task () = Returns v
                   /\ results s !! j = Some (Some v);
  inv_rejected : forall j e,
    (j, Some e) ∈ settled s ->
    exists task, tasks !! j = Some task /\ task () = Throws e;
  inv_slots : forall j v,
    results s !! j = Some (Some v) ->
    exists task, tasks !! j = Some task /\ task () = Returns v;
  inv_bound : Z.of_nat (size (executing s)) <= maxConcurrent;
  inv_control :
    match control s with
    | AtLoop i =>
        length (started s) = i
        /\ Z.of_nat (size (executing s)) < maxConcurrent
    | AwaitRace i snapshot =>
        length (started s) = S i
        /\ i ∈ snapshot /\ NoDup snapshot
        /\ Z.of_nat (length snapshot) <= maxConcurrent
        /\ (forall j, j ∈ executing s -> j ∈ snapshot)
        /\ (forall j, j ∈ snapshot -> (j < S i)%nat)
    | AwaitAll snapshot =>
        length (started s) = length tasks
        /\ (forall j, j ∈ executing s -> j ∈ snapshot)
        /\ (forall j, j ∈ snapshot -> (j < length tasks)%nat)
    | Finished (Returns r) =>
        r = results s /\ executing s = ∅
        /\ length (started s) = length tasks
    | Finished (Throws e) =>
        exists j task, tasks !! j = Some task /\ task () = Throws e
    end
}.

End Scheduler.

Arguments State T : clear implicits.
Arguments Invariant {T} tasks maxConcurrent s.

(** *** _getAllRawMetricsParallel (count-prefetch strategy) *)
Section Orchestrator.

Context {V : Type}.
Variable backend : Backend V.
Variable context : Context.

(** [for (const pageResults of results) allMetrics.push(...pageResults)];
    spreading an empty slot is a [TypeError]. *)
Fixpoint mergePages (results : list (option (list (Metric V))))
    : outcome (list (Metric V)) :=
  match results with
  | [] => Returns []
  | Some pageResults :: rest =>
      allMetrics ← mergePages rest; Returns (pageResults ++ allMetrics)
  | None :: _ => Throws TypeError
  end.

(** [allMetrics.sort((a, b) => Date.parse(a.time) - Date.parse(b.time))]:
    [Array.prototype.sort] is stable, so the result is the one of
    inserting each element before the first later one. *)
Fixpoint insertByTime (a : Metric V) (sorted : list (Metric V))
    : list (Metric V) :=
  match sorted with
  | [] => [a]
  | b :: rest =>
      if Date_parse (m_time a) <=? Date_parse (m_time b)
      then a :: sorted
      else b :: insertByTime a rest
  end.

Definition sortByTime (l : list (Metric V)) : list (Metric V) :=
  foldr insertByTime [] l.

(** [a] is not later than [b]. *)
Definition notAfter (a b : Metric V) : Prop :=
  Date_parse (m_time a) <= Date_parse (m_time b).

(** [p] is a point of some page the backend serves. *)
Definition fromPages (p : Metric V) : Prop :=
  exists request sent d page,
    json (page_query backend request sent) = Some (JsonValue (Some d))
    /\ points d = Some page /\ p ∈ page.

(** [tagSlugs] is [tagSlug :: moreSlugs]; the caller passes one slug. *)
Definition _getAllRawMetricsParallel
    (pick : State (list (Metric V)) -> Step)
    (sourceId tagSlug : string) (moreSlugs : list string)
    : option (outcome (list (Metric V))) :=
  let tagSlugs := tagSlug :: moreSlugs in
  match _getTotalCount backend context sourceId tagSlug with
  | Throws e => Some (Throws e)
  | Returns totalCount =>
      if totalCount =? 0 then
        Some (lastPoint ←
                _getLastPointOfPreviousPeriod backend context sourceId tagSlugs;
              Returns (match lastPoint with Some p => [p] | None => [] end))
      else if totalCount <=? queryLimit then
        Some (data ← (_fetchRawDataPage backend context sourceId tagSlug
                        0 queryLimit 3 0).2;
              lastPoint ←
                _getLastPointOfPreviousPeriod backend context sourceId tagSlugs;
              Returns (match lastPoint with
                       | Some p => data ++ [p]
                       | None => data
                       end))
      else
        let pagesNeeded := ceilDiv totalCount queryLimit in
        let maxConcurrent := 10 in
        let fetchTasks :=
          map (fun (i : nat) (_ : unit) =>
                 (_fetchRawDataPage backend context sourceId tagSlug
                    (Z.of_nat i * queryLimit) queryLimit 3 0).2)
              (seq 0 (Z.to_nat pagesNeeded)) in
        match _fetchWithConcurrencyLimit fetchTasks maxConcurrent pick with
        | None => None
        | Some batch =>
            Some (results ← batch;
                  allMetrics ← mergePages results;
                  lastPoint ←
                    _getLastPointOfPreviousPeriod backend context sourceId tagSlugs;
                  Returns (sortByTime
                             (match lastPoint with
                              | Some p => allMetrics ++ [p]
                              | None => allMetrics
                              end)))
        end
  end.

End Orchestrator.

(** *** getAllRawMetrics *)

(** The global [isNaN] on [x.values[tagSlug]]; a missing member is
    [undefined], which is not a number. *)
Definition isNaN_member (v : option F64.float) : bool :=
  match v with
  | Some x => F64.isNaN x
  | None => true
  end.

(** [parseFloat((value * factor).toFixed(decimals))] *)
Definition scaleAndRound (factor : F64.float) (decimals : Z)
    (v : option F64.float) : outcome F64.float :=
  let scaled := F64.mul (default F64.NaN v) factor in
  if (0 <=? decimals) && (decimals <=? 100)
  then Returns (F64.roundDecimals scaled decimals)
  else Throws RangeError.

Definition getAllRawMetrics (backend : Backend F64.float) (context : Context)
    (pick : State (list (Metric F64.float)) -> Step)
    (factor : F64.float) (decimals : Z)
    : option (outcome (option (list (SamplePoint F64.float)))) :=
  match metric context with
  | None => Some (Returns None)
  | Some tagSlug =>
      match resolve_source backend tagSlug with
      | Throws e => Some (Throws e)
      | Returns None => Some (Returns None)
      | Returns (Some sourceId) =>
          match _getAllRawMetricsParallel backend context pick
                  sourceId tagSlug [] with
          | None => None
          | Some fetched =>
              Some (allMetricsOfTagSlug ← fetched;
                    let parsed :=
                      map (fun x => (Date_parse (m_time x),
                                     m_values x !! tagSlug))
                          allMetricsOfTagSlug in
                    let numeric :=
                      List.filter (fun d => negb (isNaN_member d.2)) parsed in
                    rounded ←
                      mapM (fun d =>
                              v ← scaleAndRound factor decimals d.2;
                              Returns {| time := d.1; value := v |})
                           numeric;
                    Returns (Some rounded))
          end
      end
  end.

End DataService.

(** ** services/chart.service.ts: getDataAndDraw, up to the chart option *)

Module ChartService.
Section WithExp.

Variable Math_exp : F64.float -> F64.float.

Let ops : NumOps := f64_ops Math_exp.

(** [d.value !== 0] *)
Definition isNonZero (v : F64.float) : bool := negb (SFeqb v (F64.ofZ 0)).

(** Lines 57 to 67: the guards on the fetched data and the
    [ignoreZero] filter.  The value returned is the array that
    [calculateStatistics] is called with. *)
Definition statisticsInput (data : option (list (SamplePoint F64.float)))
    (ignoreZero : bool) : outcome (list (SamplePoint F64.float)) :=
  match data with
  | None => Throws NoDataAvailable
  | Some data =>
      if (length data =? 0)%nat then Throws NoDataAvailable
      else Returns (if ignoreZero
                    then List.filter (fun d => isNonZero (value d)) data
                    else data)
  end.

(** Key equality of a [Map]: [NaN] equals itself and the two zeros
    are one key. *)
Definition sameValueZero (x y : F64.float) : bool :=
  match x, y with
  | S754_nan, S754_nan => true
  | S754_zero _, S754_zero _ => true
  | S754_infinity s, S754_infinity s' => Bool.eqb s s'
  | S754_finite s m e, S754_finite s' m' e' =>
      Bool.eqb s s' && (m =? m')%positive && (e =? e')
  | _, _ => false
  end.

(** The key a [Map] keeps for [v]: [Map.prototype.set] stores [-0] as
    [+0]. *)
Definition keyOf (v : F64.float) : F64.float :=
  match v with
  | S754_zero _ => S754_zero false
  | _ => v
  end.

(** [valueCounts.set(value, (valueCounts.get(value) || 0) + 1)] *)
Fixpoint countValue (v : F64.float) (valueCounts : list (F64.float * Z))
    : list (F64.float * Z) :=
  match valueCounts with
  | [] => [(keyOf v, 1)]
  | (k, c) :: rest =>
      if sameValueZero k v then (k, c + 1) :: rest
      else (k, c) :: countValue v rest
  end.

Definition valueCountsOf (data : list (SamplePoint F64.float))
    : list (F64.float * Z) :=
  fold_left (fun counts point => countValue (value point) counts) data [].

(** [Math.max(...counts)]; the maximum of nothing is [-Infinity]. *)
Definition maxCount (valueCounts : list (F64.float * Z)) : F64.float :=
  match valueCounts with
  | [] => S754_infinity true
  | (_, c) :: rest => F64.ofZ (fold_left Z.max rest.*2 c)
  end.

(** The function up to the point where the chart is drawn, given what
    [getAllRawMetrics] resolved to: it throws, or goes on to draw and
    returns the standard deviation.  Sorting [data] by value in between
    changes none of the numbers used here.  [None]: the curve loop did
    not end within [fuel] iterations. *)
Definition getDataAndDraw (fuel : nat)
    (fetched : option (list (SamplePoint F64.float))) (ignoreZero : bool)
    : option (outcome F64.float) :=
  match statisticsInput fetched ignoreZero with
  | Throws e => Some (Throws e)
  | Returns data =>
      let summary := Statistics.calculateStatistics ops data in
      let mean := Statistics.mean summary in
      let standardDeviation := Statistics.standardDeviation summary in
      let binSize := F64.div standardDeviation (F64.ofZ 2) in
      let maxY := maxCount (valueCountsOf data) in
      match Statistics.generateNormalDistributionData ops fuel
              mean standardDeviation (F64.ofZ (Z.of_nat (length data)))
              binSize maxY with
      | None => None
      | Some [] => Some (Throws (NotEnoughData mean))
      | Some (_ :: _) => Some (Returns standardDeviation)
      end
  end.

End WithExp.
End ChartService.

(** ** The formulas of the design document

    Written after the document's words, to be compared with the
    functions above: in [Design] over the real numbers, which is what
    the words say, and in [Design64] with every operation carried out
    in binary64, which is what a program on numbers can compute. *)

Module Design.

(** The real number a finite binary64 value stands for (0 for the
    others). *)
Definition exact (x : F64.float) : R :=
  match x with
  | S754_finite s m e =>
      let magnitude :=
        if 0 <=? e then IZR (Zpos m * 2 ^ e)
        else (IZR (Zpos m) / IZR (2 ^ (- e)))%R in
      if s then (- magnitude)%R else magnitude
  | _ => 0%R
  end.





End Design.

Module Design64.


Definition count (values : list F64.float) : F64.float :=
  F64.ofZ (Z.of_nat (length values)).






End Design64.

(** ** Inputs used in examples *)

Module Examples.

Import DataService.

(** The scenario of the design document: values 1..5 at times 0..4. *)
Definition oneToFive : list (SamplePoint F64.float) :=
  map (fun i => {| time := i; value := F64.ofZ (i + 1) |}) [0; 1; 2; 3; 4].



(** Three equal readings. *)
Definition threeFives : list (SamplePoint F64.float) :=
  map (fun i => {| time := i; value := F64.ofZ 5 |}) [0; 1; 2].

(** One reading of zero. *)
Definition oneZero : list (SamplePoint F64.float) :=
  [ {| time := 0; value := F64.ofZ 0 |} ].

(** A window from 1.5 s to 61.5 s after the epoch. *)
Definition window : Context :=
  {| timeRange_from := 1500; timeRange_to := 61500;
     metric := Some "temperature" |}.

Definition point {V : Type} (seconds : Z) (v : V) : Metric V :=
  {| m_time := {| epochSeconds := seconds |};
     m_values := {[ "temperature" := v ]} |}.

(** [200 OK] with [{ data: { points } }]. *)
Definition ok {P : Type} (pts : list P) : Response P :=
  {| status := 200;
     json := Some (JsonValue (Some {| points := Some pts |})) |}.

(** [200 OK] with [{}]. *)
Definition emptyObject {P : Type} : Response P :=
  {| status := 200; json := Some (JsonValue None) |}.

(** [429 Too Many Requests] with a body that is not JSON. *)
Definition rateLimitedText {P : Type} : Response P :=
  {| status := 429; json := None |}.

(** [429 Too Many Requests] with an error object for a body. *)
Definition rateLimitedJson {P : Type} : Response P :=
  {| status := 429; json := Some (JsonValue None) |}.

(** The answer to a count query over [n] points. *)
Definition counted (n : Z) : Response CountPoint :=
  ok [ {| c_values := Some {[ "temperature" := n ]} |} ].

(** A backend that gives each kind of query one fixed answer. *)
Definition fixedBackend {V : Type} (count : Response CountPoint)
    (page backfill : Response (Metric V)) : Backend V :=
  {| count_query := fun _ => count;
     page_query := fun _ _ => page;
     backfill_query := fun _ => backfill;
     resolve_source := fun _ => Returns (Some "source") |}.

(** The count query is answered with [{}]. *)
Definition noCountBackend : Backend Z :=
  fixedBackend emptyObject (ok []) (ok []).

(** Every page request is turned away, with a text body or with a JSON
    error object. *)
Definition busyTextBackend : Backend Z :=
  fixedBackend (counted 1) rateLimitedText (ok []).

Definition busyJsonBackend : Backend Z :=
  fixedBackend (counted 1) rateLimitedJson (ok []).

(** Three tasks, and a policy under which the task started last
    settles first whenever two tasks are in flight. *)
Definition threeTasks : list (unit -> outcome Z) :=
  [ fun _ => Returns 10; fun _ => Returns 20; fun _ => Returns 30 ].

Definition newestFirst (s : State Z) : Step :=
  match elements (executing s) with
  | j :: k :: rest => Settle (foldr Nat.max 0%nat (j :: k :: rest))
  | _ => MainFlow
  end.

(** The policy that lets the body of a function run whenever it can. *)
Definition eager {T : Type} (s : State T) : Step := MainFlow.

(** One point at 10 s in the window, and a point before the window. *)
Definition smallBackend : Backend Z :=
  fixedBackend (counted 1) (ok [point 10 7]) (ok [point 0 5]).

(** More than one page is announced; each page holds a point at 3 s
    followed by a point at 2 s. *)
Definition pagedBackend : Backend Z :=
  fixedBackend (counted 5001) (ok [point 3 1; point 2 2]) (ok [point 0 5]).

(** A reading that overflowed to [Infinity] (the JSON number [1e999]). *)
Definition overflowBackend : Backend F64.float :=
  fixedBackend (counted 1) (ok [point 10 F64.Infinity]) (ok []).

End Examples.

(** ** A synthetic backend

    A fixed, finite set of points served under offset/limit pagination:
    [ascending] is the set in the order served for [order: 'asc'],
    [unordered] in the order served when no order is asked for;
    [previous] is the last point before the window, if any. *)

Module Synthetic.

Import DataService.

Definition queryOf (request : RequestBody) : option Query :=
  tag ← head (r_tags request); head (t_queries tag).

Definition serve {V : Type} (stored : list (Metric V)) (offset limit : Z)
    : list (Metric V) :=
  take (Z.to_nat limit) (drop (Z.to_nat offset) stored).

Definition backend {V : Type} (tagSlug : string)
    (ascending unordered : list (Metric V)) (previous : option (Metric V))
    : Backend V :=
  {| count_query := fun _ =>
       Examples.ok [ {| c_values :=
                          Some {[ tagSlug := Z.of_nat (length ascending) ]} |} ];
     page_query := fun request _ =>
       match queryOf request with
       | Some q =>
           Examples.ok
             (serve (match q_order q with
                     | Some _ => ascending
                     | None => unordered
                     end)
                    (default 0 (q_offset q)) (default 0 (q_limit q)))
       | None => Examples.ok []
       end;
     backfill_query := fun _ => Examples.ok (option_list previous);
     resolve_source := fun _ => Returns (Some "source") |}.

End Synthetic.

(** ** Reading traces and replacing parts of a backend *)

Module Trace.

Import DataService.

(** The number of requests in a trace. *)
Definition fetches (events : list Event) : nat :=
  length (List.filter (fun ev => match ev with Fetched _ _ => true | _ => false end)
            events).

(** The trace of [k] attempts turned away with status 429 by a call
    that started with [retries] retries: each is followed by its
    back-off wait. *)
Definition turnedAway (request : RequestBody) (retries : Z) (k : nat)
    : list Event :=
  flat_map (fun i => [ Fetched request 429;
                       Waited ((4 - (retries - Z.of_nat i)) * 1000) ])
           (seq 0 k).

(** What the page fetcher makes of the body of its last answer. *)
Definition readPage {V : Type} (answer : Response (Metric V))
    : outcome (list (Metric V)) :=
  match json answer with
  | None => Throws SyntaxError
  | Some JsonNull => Throws TypeError
  | Some (JsonValue data) => Returns (default [] (d ← data; points d))
  end.

(** [backend] with its answers to page requests replaced. *)
Definition withPages {V : Type} (backend : Backend V)
    (pages : RequestBody -> nat -> Response (Metric V)) : Backend V :=
  {| count_query := count_query backend;
     page_query := pages;
     backfill_query := backfill_query backend;
     resolve_source := resolve_source backend |}.

End Trace.

(** ** More inputs for examples *)

Module MoreExamples.

Import DataService Examples.

(** The first two attempts at a page are turned away, the third is
    served. *)
Definition flakyBackend : Backend Z :=
  {| count_query := fun _ => counted 1;
     page_query := fun _ sent =>
       if (sent <? 2)%nat then rateLimitedJson else ok [point 10 7];
     backfill_query := fun _ => ok [];
     resolve_source := fun _ => Returns (Some "source") |}.

(** A backend that ignores the offset and always serves the same full
    page. *)
Definition endlessBackend : Backend Z :=
  fixedBackend (counted 1) (ok (replicate (Z.to_nat queryLimit) (point 10 7)))
    (ok []).

(** The count is 3 but every page request is answered with [{}]. *)
Definition hollowBackend : Backend Z :=
  fixedBackend (counted 3) emptyObject (ok [point 0 5]).

(** Two pages are announced and the second one cannot be read. *)
Definition brokenPageBackend : Backend Z :=
  {| count_query := fun _ => counted 5001;
     page_query := fun request _ =>
       match Synthetic.queryOf request with
       | Some q => if default 0 (q_offset q) =? 0 then ok [point 10 7]
                   else rateLimitedText
       | None => rateLimitedText
       end;
     backfill_query := fun _ => ok [];
     resolve_source := fun _ => Returns (Some "source") |}.

(** The policy under which a task in flight settles before the body of
    the function moves on. *)
Definition settleFirst {T : Type} (s : State T) : Step :=
  match elements (executing s) with
  | j :: _ => Settle j
  | [] => MainFlow
  end.

End MoreExamples.

(** ** Reading the histogram *)

Module Histogram.

(** [valueCounts.get(v) || 0] *)
Fixpoint get (v : F64.float) (valueCounts : list (F64.float * Z)) : Z :=
  match valueCounts with
  | [] => 0
  | (k, c) :: rest =>
      if ChartService.sameValueZero k v then c else get v rest
  end.

(** The number of readings whose value is the key [v]. *)
Definition occurrences (v : F64.float) (data : list (SamplePoint F64.float))
    : Z :=
  Z.of_nat (length (List.filter
                      (fun d => ChartService.sameValueZero v (value d)) data)).

(** No two entries have the same key. *)
Definition distinctKeys (valueCounts : list (F64.float * Z)) : Prop :=
  StronglySorted (fun p q => ChartService.sameValueZero p.1 q.1 = false)
    valueCounts.

End Histogram.


(** ** getAllRawMetrics: choosing the data source *)

Module Identity.

Import DataService.

(** What the program reads of a [DataSource] and of a [Tag]. *)
Record DataSource : Type := { source_publicId : string }.
Record Tag : Type := {
  tag_slug : string;
  tag_sourceId : string     (* [tag.source.publicId] *)
}.

(** From [const filteredTags = ...] to [if (!sourceId) return null]:
    the tags whose source is among [sources], of these the first with
    the slug asked for, and of that the source's id unless it is the
    empty string. *)
Definition selectSource (sources : list DataSource) (tags : list Tag)
    (tagSlug : string) : option string :=
  let filteredTags :=
    List.filter
      (fun tag =>
         match find (fun source =>
                       bool_decide (source_publicId source = tag_sourceId tag))
                    sources with
         | Some _ => true
         | None => false
         end)
      tags in
  match find (fun x => bool_decide (tag_slug x = tagSlug)) filteredTags with
  | Some x =>
      if bool_decide (tag_sourceId x = EmptyString) then None
      else Some (tag_sourceId x)
  | None => None
  end.

(** [backend] with the identity lookups answered by [sources] and
    [tags]. *)
Definition withSources {V : Type} (backend : Backend V)
    (sources : list DataSource) (tags : list Tag) : Backend V :=
  {| count_query := count_query backend;
     page_query := page_query backend;
     backfill_query := backfill_query backend;
     resolve_source := fun tagSlug =>
       Returns (selectSource sources tags tagSlug) |}.

End Identity.


(** * Properties *)

(** ** Statistics *)

Section StatisticsFacts.

Import Statistics.

Variable Math_exp : F64.float -> F64.float.

Local Notation "'ops'" := (f64_ops Math_exp).





End StatisticsFacts.



(** ** The curve generator on degenerate input *)

Section CurveFacts.

Import Statistics.

(** With one sample or none the generator returns no points. *)
Lemma generateNormalDistributionData_small (ops : NumOps) (fuel : nat)
    (mean standardDeviation dataLength binSize maxY : num ops) :
  n_leb ops dataLength (n_ofZ ops 1) = true ->
  generateNormalDistributionData ops fuel mean standardDeviation
    dataLength binSize maxY = Some [].
Proof.
  intros small. unfold generateNormalDistributionData. now rewrite small.
Qed.

(** A finite number compares equal to itself. *)
Lemma leb_finite_refl (s : bool) (m : positive) (e : Z) :
  F64.leb (S754_finite s m e) (S754_finite s m e) = true.
Proof.
  unfold F64.leb, SFleb, SFcompare.
  rewrite Z.compare_refl, Pos.compare_cont_refl. now destruct s.
Qed.

(** With a deviation and a bin size of zero the loop variable never
    moves, so the loop condition stays true. *)
Lemma curveLoop_stuck (Math_exp : F64.float -> F64.float) (fuel : nat)
    (s : bool) (m : positive) (e : Z) (dataLength : F64.float)
    (xValues yValues : list F64.float) (maxYDistrib : F64.float) :
  curveLoop (f64_ops Math_exp) fuel (S754_finite s m e) (F64.ofZ 0)
    dataLength (F64.ofZ 0) (S754_finite s m e) xValues yValues maxYDistrib
  = None.
Proof.
  revert xValues yValues maxYDistrib.
  induction fuel as [|fuel IH]; intros xValues yValues maxYDistrib.
  - reflexivity.
  - cbn [curveLoop].
    change (n_leb (f64_ops Math_exp) (S754_finite s m e)
              (n_add (f64_ops Math_exp) (S754_finite s m e)
                 (n_mul (f64_ops Math_exp) (n_ofZ (f64_ops Math_exp) 5)
                    (F64.ofZ 0))))
      with (F64.leb (S754_finite s m e) (S754_finite s m e)).
    rewrite leb_finite_refl.
    change (n_add (f64_ops Math_exp) (S754_finite s m e) (F64.ofZ 0))
      with (S754_finite s m e).
    apply IH.
Qed.

(** C5.  On three equal readings of 5 (mean 5, deviation 0, bin size 0,
    histogram peak 3) [generateNormalDistributionData] does not return,
    however many iterations it is given; the same holds for every finite
    mean.  Through [getDataAndDraw] the input is three samples of the
    same value. *)
Theorem generateNormalDistributionData_zero_deviation_diverges
    (Math_exp : F64.float -> F64.float) (fuel : nat) :
  generateNormalDistributionData (f64_ops Math_exp) fuel
    (F64.ofZ 5) (F64.ofZ 0) (F64.ofZ 3) (F64.ofZ 0) (F64.ofZ 3) = None
  /\ (forall s m e maxY,
        generateNormalDistributionData (f64_ops Math_exp) fuel
          (S754_finite s m e) (F64.ofZ 0) (F64.ofZ 3) (F64.ofZ 0) maxY = None)
  /\ ChartService.getDataAndDraw Math_exp fuel (Some Examples.threeFives) false
     = None.
Proof.
  assert (general : forall s m e maxY,
    generateNormalDistributionData (f64_ops Math_exp) fuel
      (S754_finite s m e) (F64.ofZ 0) (F64.ofZ 3) (F64.ofZ 0) maxY = None).
  { intros s m e maxY. unfold generateNormalDistributionData.
    change (n_leb (f64_ops Math_exp) (F64.ofZ 3) (n_ofZ (f64_ops Math_exp) 1))
      with false. cbv iota.
    change (n_sub (f64_ops Math_exp) (S754_finite s m e)
              (n_mul (f64_ops Math_exp) (n_ofZ (f64_ops Math_exp) 5) (F64.ofZ 0)))
      with (S754_finite s m e).
    now rewrite curveLoop_stuck. }
  split; [apply general|]. split; [exact general|].
  unfold ChartService.getDataAndDraw.
  change (ChartService.statisticsInput (Some Examples.threeFives) false)
    with (Returns Examples.threeFives).
  cbv beta iota zeta.
  change (Statistics.mean (calculateStatistics (f64_ops Math_exp) Examples.threeFives))
    with (F64.ofZ 5).
  change (Statistics.standardDeviation
            (calculateStatistics (f64_ops Math_exp) Examples.threeFives))
    with (F64.ofZ 0).
  change (F64.div (F64.ofZ 0) (F64.ofZ 2)) with (F64.ofZ 0).
  change (F64.ofZ (Z.of_nat (length Examples.threeFives))) with (F64.ofZ 3).
  now rewrite (general false 5629499534213120%positive (-50)).
Qed.

(** ** The guard of the chart service *)

(** C10.  With [ignoreZero] set and a single reading of zero, the
    emptiness guard passes and the filter then removes the reading:
    [calculateStatistics] is called with the empty array, and its mean
    is [0 / 0]. *)
Theorem statisticsInput_can_be_empty (Math_exp : F64.float -> F64.float) :
  ChartService.statisticsInput (Some Examples.oneZero) true = Returns []
  /\ Statistics.mean (calculateStatistics (f64_ops Math_exp) [])
     = F64.NaN
  /\ ChartService.getDataAndDraw Math_exp 1 (Some Examples.oneZero) true
     = Some (Throws (NotEnoughData F64.NaN)).
Proof.
  repeat split.
Qed.

End CurveFacts.


(** ** The count query *)

Section CountFacts.

Import DataService.

Lemma _toIXONISOString_valid (ms : Z) :
  Z.abs ms <= maxTimeValue ->
  _toIXONISOString ms = Returns {| epochSeconds := ms / 1000 |}.
Proof.
  intros valid. unfold _toIXONISOString.
  now rewrite (proj2 (Z.leb_le _ _) valid).
Qed.

(** Counterexample to C4: a count response [{}] yields the count 0,
    not an error. *)
Lemma _getTotalCount_defaults_to_zero :
  _getTotalCount Examples.noCountBackend Examples.window "source" "temperature"
  = Returns 0.
Proof. reflexivity. Qed.

(** C4, amended.  When the body of the count response is JSON and not
    [null], [_getTotalCount] returns the count member if there is one
    and 0 otherwise: with no [data], no [points], an empty [points], no
    [values] or no value for the tag it returns 0.  An error is
    propagated only when the body is not JSON or is [null]. *)
Theorem _getTotalCount_lenient {V : Type} (backend : Backend V)
    (context : Context) (sourceId tagSlug : string)
    (body : option (Body CountPoint)) :
  validWindow context ->
  (forall request, json (count_query backend request) = body) ->
  _getTotalCount backend context sourceId tagSlug
  = match body with
    | None => Throws SyntaxError
    | Some JsonNull => Throws TypeError
    | Some (JsonValue data) => Returns (default 0 (countMember data tagSlug))
    end
  /\ countMember None tagSlug = None
  /\ countMember (Some {| points := None |}) tagSlug = None
  /\ countMember (Some {| points := Some [] |}) tagSlug = None
  /\ (forall rest,
        countMember (Some {| points := Some ({| c_values := None |} :: rest) |})
          tagSlug = None)
  /\ (forall values rest,
        values !! tagSlug = None ->
        countMember (Some {| points := Some ({| c_values := Some values |} :: rest) |})
          tagSlug = None).
Proof.
  intros [valid_from valid_to] answer.
  split; [|repeat split; intros; cbn; auto].
  unfold _getTotalCount.
  rewrite (_toIXONISOString_valid _ valid_from), (_toIXONISOString_valid _ valid_to).
  cbn [mbind outcome_bind]. rewrite answer.
  destruct body as [[|data]|]; try reflexivity.
  destruct (countMember data tagSlug) as [c|]; [|reflexivity].
  cbn. destruct (Z.eqb_spec c 0) as [->|]; reflexivity.
Qed.

Lemma _getTotalCount_lenient_witness :
  _getTotalCount Examples.noCountBackend Examples.window "source" "temperature"
  = Returns (default 0 (countMember None "temperature")).
Proof.
  refine (proj1 (_getTotalCount_lenient Examples.noCountBackend Examples.window
                   "source" "temperature" (Some (JsonValue None)) _ _)).
  - split; vm_compute; discriminate.
  - reflexivity.
Defined.

End CountFacts.

(** ** The page fetcher *)

Section PageFacts.

Import DataService.

Context {V : Type}.
Variable backend : Backend V.
Variable context : Context.

(** The request a page fetch sends over a valid window. *)
Lemma _fetchRawDataPage_unfold_valid (sourceId tagSlug : string)
    (offset limit retries : Z) (sent : nat) :
  validWindow context ->
  let request :=
    pageRequest {| epochSeconds := timeRange_from context / 1000 |}
      {| epochSeconds := timeRange_to context / 1000 |}
      sourceId tagSlug offset limit in
  let response := page_query backend request sent in
  _fetchRawDataPage backend context sourceId tagSlug offset limit retries sent
  = if (status response =? 429) && (0 <? retries) then
      let again :=
        _fetchRawDataPage backend context sourceId tagSlug offset limit
          (retries - 1) (S sent) in
      (Fetched request 429 :: Waited ((4 - retries) * 1000) :: again.1, again.2)
    else
      ([Fetched request (status response)],
       match json response with
       | None => Throws SyntaxError
       | Some JsonNull => Throws TypeError
       | Some (JsonValue data) => Returns (default [] (d ← data; points d))
       end).
Proof.
  intros [valid_from valid_to] request response.
  subst request response.
  funelim (_fetchRawDataPage backend context sourceId tagSlug offset limit
             retries sent).
  - rewrite (_toIXONISOString_valid _ valid_to) in *. discriminate.
  - rewrite (_toIXONISOString_valid _ valid_from) in *. discriminate.
  - rewrite (_toIXONISOString_valid _ valid_to) in Heq.
    rewrite (_toIXONISOString_valid _ valid_from) in Heq0.
    injection Heq as <-. injection Heq0 as <-.
    rewrite rateLimited.
    now destruct (_fetchRawDataPage backend context sourceId tagSlug offset
                    limit (retries - 1) (S sent)).
  - rewrite (_toIXONISOString_valid _ valid_to) in Heq.
    rewrite (_toIXONISOString_valid _ valid_from) in Heq0.
    injection Heq as <-. injection Heq0 as <-.
    match goal with
    | notLimited : (_ && _)%bool = false |- _ => now rewrite notLimited
    end.
Qed.

(** Counterexample to C3: every answer is a 429 whose body is not JSON;
    after the last retry the call raises. *)
Lemma _fetchRawDataPage_raises_on_text_body :
  (_fetchRawDataPage Examples.busyTextBackend Examples.window
     "source" "temperature" 0 queryLimit 3 0).2 = Throws SyntaxError.
Proof. reflexivity. Qed.

(** C3, amended.  Against a backend that answers every page request
    with status 429, a call with the default three retries sends the
    request four times, waits 1 s, 2 s and 3 s between the attempts, and
    then reads the body of the fourth answer: it returns the points of
    that body, or the empty list when the body has none, provided the
    body is JSON and not [null]; otherwise reading the body raises. *)
Theorem _fetchRawDataPage_rate_limited (sourceId tagSlug : string)
    (offset limit : Z) :
  validWindow context ->
  (forall request sent, status (page_query backend request sent) = 429) ->
  let request :=
    pageRequest {| epochSeconds := timeRange_from context / 1000 |}
      {| epochSeconds := timeRange_to context / 1000 |}
      sourceId tagSlug offset limit in
  _fetchRawDataPage backend context sourceId tagSlug offset limit 3 0
  = ([Fetched request 429; Waited 1000;
      Fetched request 429; Waited 2000;
      Fetched request 429; Waited 3000;
      Fetched request 429],
     match json (page_query backend request 3) with
     | None => Throws SyntaxError
     | Some JsonNull => Throws TypeError
     | Some (JsonValue data) => Returns (default [] (d ← data; points d))
     end).
Proof.
  intros valid busy request.
  rewrite _fetchRawDataPage_unfold_valid by exact valid.
  rewrite busy. cbn [Z.eqb Pos.eqb andb Z.ltb Z.compare].
  rewrite _fetchRawDataPage_unfold_valid by exact valid.
  rewrite busy. cbn [Z.eqb Pos.eqb andb Z.ltb Z.compare Z.sub Z.add Z.opp Z.pos_sub Z.succ_double Z.pred_double Z.double Pos.pred_double].
  rewrite _fetchRawDataPage_unfold_valid by exact valid.
  rewrite busy. cbn [Z.eqb Pos.eqb andb Z.ltb Z.compare Z.sub Z.add Z.opp Z.pos_sub Z.succ_double Z.pred_double Z.double Pos.pred_double].
  rewrite _fetchRawDataPage_unfold_valid by exact valid.
  rewrite busy. cbn [Z.eqb Pos.eqb andb Z.ltb Z.compare Z.sub Z.add Z.opp Z.pos_sub Z.succ_double Z.pred_double Z.double Pos.pred_double].
  reflexivity.
Qed.

End PageFacts.

Lemma _fetchRawDataPage_rate_limited_witness :
  (DataService._fetchRawDataPage Examples.busyJsonBackend Examples.window
     "source" "temperature" 0 DataService.queryLimit 3 0).2 = Returns [].
Proof.
  rewrite (_fetchRawDataPage_rate_limited Examples.busyJsonBackend
             Examples.window "source" "temperature" 0 DataService.queryLimit).
  - reflexivity.
  - split; vm_compute; discriminate.
  - reflexivity.
Defined.

(** ** The concurrency-limited scheduler *)

Section SchedulerFacts.

Import DataService.

Context {T : Type}.
Variable tasks : list (unit -> outcome T).
Variable maxConcurrent : Z.
Hypothesis atLeastOne : 1 <= maxConcurrent.

Local Notation "'Inv'" := (Invariant tasks maxConcurrent).
Local Notation "'step'" := (DataService.step tasks maxConcurrent).

Lemma firstSettled_Some snapshot log j e :
  firstSettled snapshot log = Some (j, e) -> (j, e) ∈ log /\ j ∈ snapshot.
Proof.
  unfold firstSettled. intros found. apply find_some in found as [inLog inSnap].
  apply bool_decide_eq_true in inSnap. split; [now apply list_elem_of_In|exact inSnap].
Qed.

Lemma firstSettled_None snapshot log j :
  firstSettled snapshot log = None -> j ∈ snapshot -> j ∉ log.*1.
Proof.
  unfold firstSettled. intros notFound inSnap inLog.
  apply list_elem_of_fmap in inLog as [[j' e] [-> inLog]].
  apply list_elem_of_In in inLog.
  pose proof (find_none _ _ notFound _ inLog) as no. cbn in no.
  apply bool_decide_eq_false in no. contradiction.
Qed.

Lemma firstRejected_Some snapshot log e :
  firstRejected snapshot log = Some e -> exists j, (j, Some e) ∈ log.
Proof.
  unfold firstRejected. destruct (find _ log) as [[j e']|] eqn:found; [|discriminate].
  intros ->. apply find_some in found as [inLog _].
  exists j. now apply list_elem_of_In.
Qed.

Lemma allSettled_true snapshot log j :
  allSettled snapshot log = true -> j ∈ snapshot -> j ∈ log.*1.
Proof.
  unfold allSettled. rewrite forallb_forall. intros all inSnap.
  apply list_elem_of_In in inSnap. apply all in inSnap.
  now apply bool_decide_eq_true in inSnap.
Qed.

Lemma allSettled_false snapshot log :
  allSettled snapshot log = false -> exists j, j ∈ snapshot /\ j ∉ log.*1.
Proof.
  unfold allSettled. intros notAll.
  induction snapshot as [|j snapshot IH]; [discriminate|].
  cbn in notAll. apply andb_false_iff in notAll as [no|no].
  - apply bool_decide_eq_false in no. exists j. split; [left|exact no].
  - destruct (IH no) as (j' & inSnap & notIn). exists j'. split; [now right|exact notIn].
Qed.

Lemma invariant_initial : Inv (initial tasks).
Proof.
  constructor; cbn.
  - reflexivity.
  - lia.
  - intros j. split; [set_solver|lia].
  - intros j. set_solver.
  - apply length_replicate.
  - intros j. set_solver.
  - intros j e. set_solver.
  - intros j v slot. apply lookup_replicate in slot as [? _]. discriminate.
  - rewrite size_empty. lia.
  - rewrite size_empty. split; [reflexivity|lia].
Qed.

Lemma size_strict_subset (X : gset nat) (snapshot : list nat) (j : nat) :
  NoDup snapshot -> (forall k, k ∈ X -> k ∈ snapshot) ->
  j ∈ snapshot -> j ∉ X -> (size X < length snapshot)%nat.
Proof.
  intros nodup sub inSnap notIn.
  rewrite <- (size_list_to_set (C := gset nat) snapshot nodup).
  apply subset_size. split.
  - intros k inX. apply elem_of_list_to_set. auto.
  - intros sup. apply notIn, sup, elem_of_list_to_set, inSnap.
Qed.

Lemma invariant_main s s' :
  Inv s -> step MainFlow s = Some s' -> Inv s'.
Proof.
  intros [Hst Hle Hex Hset Hlen Hful Hrej Hslot Hbnd Hctl] enabled.
  unfold DataService.step in enabled.
  destruct (control s) as [i|i snapshot|snapshot|r] eqn:ctrl.
  - destruct Hctl as [Hi Hsize].
    destruct (tasks !! i) as [task|] eqn:lookup.
    + apply lookup_lt_Some in lookup.
      assert (fresh : i ∉ executing s).
      { intros inX. apply (proj1 (Hex _)) in inX. lia. }
      assert (size' : size ({[i]} ∪ executing s) = S (size (executing s))).
      { rewrite size_union by set_solver. now rewrite size_singleton. }
      assert (Hex' : forall j, j ∈ {[i]} ∪ executing s
                <-> (j < S i)%nat /\ j ∉ (settled s).*1).
      { intros j. rewrite elem_of_union, elem_of_singleton, Hex, Hi. split.
        - intros [->|[lt notIn]]; [|split; [lia|exact notIn]].
          split; [lia|]. intros inSettled. apply Hset in inSettled. lia.
        - intros [lt notIn]. destruct (decide (j = i)) as [->|ne]; [now left|].
          right. split; [lia|exact notIn]. }
      injection enabled as <-.
      constructor; cbn.
      * rewrite length_app, Hi. cbn. rewrite Nat.add_1_r, seq_S.
        cbn. now rewrite Hst, Hi at 1.
      * rewrite length_app, Hi. cbn. lia.
      * intros j. rewrite length_app, Hi, Nat.add_1_r. cbn. apply Hex'.
      * intros j inSettled. apply Hset in inSettled.
        rewrite length_app. lia.
      * exact Hlen.
      * exact Hful.
      * exact Hrej.
      * exact Hslot.
      * rewrite size'. lia.
      * rewrite size'. destruct (Z.leb_spec maxConcurrent (Z.of_nat (S (size (executing s))))).
        -- rewrite length_app, Hi, Nat.add_1_r. cbn.
           split; [reflexivity|]. split; [apply elem_of_elements; set_solver|].
           split; [apply NoDup_elements|].
           split; [change (length (elements ?X)) with (size X); rewrite size'; lia|].
           split; [intros j inX; now apply elem_of_elements|].
           intros j inSnap. apply elem_of_elements in inSnap. apply (proj1 (Hex' _)) in inSnap. lia.
        -- rewrite length_app, Hi, Nat.add_1_r. cbn. split; [reflexivity|lia].
    + apply lookup_ge_None in lookup.
      injection enabled as <-. constructor; cbn; auto.
      split; [lia|]. split; [intros j inX; now apply elem_of_elements|].
      intros j inSnap. apply elem_of_elements in inSnap. apply (proj1 (Hex _)) in inSnap. lia.
  - destruct Hctl as (Hi & inSnap & nodup & Hlength & sub & below).
    destruct (firstSettled snapshot (settled s)) as [[j [e|]]|] eqn:first;
      [| |discriminate].
    + injection enabled as <-. apply firstSettled_Some in first as [inLog _].
      constructor; cbn; auto.
      destruct (Hrej j e inLog) as (task & lookup & rejects). eauto.
    + injection enabled as <-. apply firstSettled_Some in first as [inLog jSnap].
      constructor; cbn; auto.
      split; [exact Hi|].
      assert (notIn : j ∉ executing s).
      { intros inX. apply (proj1 (Hex _)) in inX as [_ notSettled]. apply notSettled.
        apply list_elem_of_fmap. now exists (j, None). }
      pose proof (size_strict_subset _ _ _ nodup sub jSnap notIn). lia.
  - destruct Hctl as (Hn & sub & below).
    destruct (firstRejected snapshot (settled s)) as [e|] eqn:rejected.
    + injection enabled as <-. apply firstRejected_Some in rejected as [j inLog].
      constructor; cbn; auto.
      destruct (Hrej j e inLog) as (task & lookup & rejects). eauto.
    + destruct (allSettled snapshot (settled s)) eqn:all; [|discriminate].
      injection enabled as <-. constructor; cbn; auto.
      split; [reflexivity|]. split; [|exact Hn].
      apply elem_of_equiv_empty_L. intros j inX.
      pose proof (allSettled_true _ _ _ all (sub j inX)) as inSettled.
      apply (proj1 (Hex _)) in inX as [_ notSettled]. contradiction.
  - discriminate.
Qed.

Lemma invariant_settle s s' index :
  Inv s -> step (Settle index) s = Some s' -> Inv s'.
Proof.
  intros [Hst Hle Hex Hset Hlen Hful Hrej Hslot Hbnd Hctl] enabled.
  unfold DataService.step in enabled.
  destruct (bool_decide (index ∈ executing s)) eqn:pending; [|discriminate].
  apply bool_decide_eq_true in pending.
  destruct (tasks !! index) as [task|] eqn:lookup; [|discriminate].
  pose proof (proj1 (Hex index) pending) as [wasStarted notSettled].
  assert (smaller : (size (executing s ∖ {[index]}) <= size (executing s))%nat)
    by (apply subseteq_size; set_solver).
  assert (Hex' : forall e j, j ∈ executing s ∖ {[index]}
            <-> (j < length (started s))%nat
                /\ j ∉ (settled s ++ [(index, e)]).*1).
  { intros e j. rewrite elem_of_difference, elem_of_singleton, Hex, fmap_app.
    cbn. rewrite elem_of_app, list_elem_of_singleton. tauto. }
  assert (Hset' : forall e j, j ∈ (settled s ++ [(index, e)]).*1
            -> (j < length (started s))%nat).
  { intros e j. rewrite fmap_app. cbn.
    rewrite elem_of_app, list_elem_of_singleton.
    intros [inSettled| ->]; auto. }
  assert (Hctl' :
    match control s with
    | AtLoop i =>
        length (started s) = i
        /\ Z.of_nat (size (executing s ∖ {[index]})) < maxConcurrent
    | AwaitRace i snapshot =>
        length (started s) = S i
        /\ i ∈ snapshot /\ NoDup snapshot
        /\ Z.of_nat (length snapshot) <= maxConcurrent
        /\ (forall j, j ∈ executing s ∖ {[index]} -> j ∈ snapshot)
        /\ (forall j, j ∈ snapshot -> (j < S i)%nat)
    | AwaitAll snapshot =>
        length (started s) = length tasks
        /\ (forall j, j ∈ executing s ∖ {[index]} -> j ∈ snapshot)
        /\ (forall j, j ∈ snapshot -> (j < length tasks)%nat)
    | Finished (Returns r) => False
    | Finished (Throws e) =>
        exists j task, tasks !! j = Some task /\ task () = Throws e
    end).
  { destruct (control s) as [i|i snapshot|snapshot|[r|e]].
    - destruct Hctl as [Hi Hsize]. split; [exact Hi|lia].
    - destruct Hctl as (Hi & inSnap & nodup & Hlength & sub & below).
      repeat split; auto. intros j inX. apply sub. set_solver.
    - destruct Hctl as (Hn & sub & below).
      repeat split; auto. intros j inX. apply sub. set_solver.
    - destruct Hctl as (_ & none & _). rewrite none in pending. set_solver.
    - exact Hctl. }
  destruct (task ()) as [result|e] eqn:settles; injection enabled as <-.
  - constructor; cbn.
    + exact Hst.
    + exact Hle.
    + apply Hex'.
    + apply Hset'.
    + now rewrite length_insert.
    + intros j inLog. apply elem_of_app in inLog as [inLog|here].
      * destruct (Hful j inLog) as (task' & v & lookup' & fulfils & slot).
        exists task', v. repeat split; auto.
        rewrite list_lookup_insert_ne; [exact slot|].
        intros <-. apply notSettled, list_elem_of_fmap. now exists (index, None).
      * apply list_elem_of_singleton in here. injection here as ->.
        exists task, result. repeat split; auto.
        apply list_lookup_insert_eq. rewrite Hlen.
        now apply lookup_lt_Some in lookup.
    + intros j e inLog. apply elem_of_app in inLog as [inLog|here]; auto.
      apply list_elem_of_singleton in here. discriminate.
    + intros j v slot. destruct (decide (j = index)) as [->|ne].
      * rewrite list_lookup_insert_eq in slot
          by (rewrite Hlen; now apply lookup_lt_Some in lookup).
        injection slot as <-. eauto.
      * rewrite list_lookup_insert_ne in slot by congruence. auto.
    + lia.
    + destruct (control s) as [i|i snapshot|snapshot|[r|e]]; tauto.
  - constructor; cbn.
    + exact Hst.
    + exact Hle.
    + apply Hex'.
    + apply Hset'.
    + exact Hlen.
    + intros j inLog. apply elem_of_app in inLog as [inLog|here]; auto.
      apply list_elem_of_singleton in here. discriminate.
    + intros j e' inLog. apply elem_of_app in inLog as [inLog|here]; auto.
      apply list_elem_of_singleton in here. injection here as -> ->. eauto.
    + exact Hslot.
    + lia.
    + destruct (control s) as [i|i snapshot|snapshot|[r|e']]; tauto.
Qed.

Lemma invariant_step s ev s' : Inv s -> step ev s = Some s' -> Inv s'.
Proof.
  destruct ev; [apply invariant_main|apply invariant_settle].
Qed.

Lemma invariant_reachable s : reachable tasks maxConcurrent s -> Inv s.
Proof.
  induction 1 as [|s ev s' _ IH enabled].
  - apply invariant_initial.
  - exact (invariant_step _ _ _ IH enabled).
Qed.

Local Notation "'potential'" := (DataService.potential tasks).

(** Every step uses up some of the potential. *)
Lemma potential_step s ev s' :
  step ev s = Some s' -> (potential s' < potential s)%nat.
Proof.
  unfold DataService.step, DataService.potential. intros enabled.
  destruct ev as [|index].
  - destruct (control s) as [i|i snapshot|snapshot|r].
    + destruct (tasks !! i) as [task|] eqn:lookup; injection enabled as <-; cbn.
      * apply lookup_lt_Some in lookup.
        assert ((size ({[i]} ∪ executing s) <= 1 + size (executing s))%nat).
        { rewrite size_union_alt, size_singleton.
          assert ((size (executing s ∖ {[i]}) <= size (executing s))%nat)
            by (apply subseteq_size; set_solver).
          lia. }
        destruct (maxConcurrent <=? _); lia.
      * lia.
    + destruct (firstSettled snapshot (settled s)) as [[j [e|]]|];
        [| |discriminate]; injection enabled as <-; cbn; lia.
    + destruct (firstRejected snapshot (settled s)) as [e|];
        [injection enabled as <-; cbn; lia|].
      destruct (allSettled snapshot (settled s)); [|discriminate].
      injection enabled as <-; cbn; lia.
    + discriminate.
  - destruct (bool_decide (index ∈ executing s)) eqn:pending; [|discriminate].
    apply bool_decide_eq_true in pending.
    assert ((size (executing s ∖ {[index]}) < size (executing s))%nat)
      by (apply subset_size; set_solver).
    destruct (tasks !! index) as [task|]; [|discriminate].
    destruct (task ()); injection enabled as <-; cbn; lia.
Qed.

(** An execution that has not finished can go on. *)
Lemma progress s :
  Inv s -> isFinished s = false ->
  is_Some (step (fallback tasks maxConcurrent s) s).
Proof.
  intros inv running. unfold fallback.
  destruct (step MainFlow s) as [s'|] eqn:main; [rewrite main; eauto|].
  destruct inv as [Hst Hle Hex Hset Hlen Hful Hrej Hslot Hbnd Hctl].
  assert (some_pending : exists j, j ∈ executing s).
  { unfold DataService.step in main. unfold isFinished in running.
    destruct (control s) as [i|i snapshot|snapshot|r]; [| | |discriminate].
    - destruct (tasks !! i); discriminate.
    - destruct Hctl as (Hi & inSnap & nodup & Hlength & sub & below).
      destruct (firstSettled snapshot (settled s)) as [[j [e|]]|] eqn:first;
        [discriminate|discriminate|].
      exists i. apply Hex. split; [lia|].
      exact (firstSettled_None _ _ _ first inSnap).
    - destruct Hctl as (Hn & sub & below).
      destruct (firstRejected snapshot (settled s)); [discriminate|].
      destruct (allSettled snapshot (settled s)) eqn:all; [discriminate|].
      apply allSettled_false in all as (j & inSnap & notSettled).
      exists j. apply Hex. split; [|exact notSettled].
      rewrite Hn. auto. }
  destruct (elements (executing s)) as [|j rest] eqn:pending.
  - destruct some_pending as [j inX]. apply elem_of_elements in inX.
    rewrite pending in inX. set_solver.
  - assert (inX : j ∈ executing s)
      by (apply elem_of_elements; rewrite pending; left).
    unfold DataService.step. rewrite (bool_decide_eq_true_2 _ inX).
    assert (is_Some (tasks !! j)) as [task ->].
    { apply lookup_lt_is_Some. apply (proj1 (Hex _)) in inX. lia. }
    destruct (task ()); eauto.
Qed.

Local Notation "'run'" := (DataService.run tasks maxConcurrent).

(** With enough fuel a run ends in a finished state, and all its states
    are reachable. *)
Lemma run_finishes pick fuel s :
  reachable tasks maxConcurrent s -> (potential s <= fuel)%nat ->
  reachable tasks maxConcurrent (run fuel pick s)
  /\ isFinished (run fuel pick s) = true.
Proof.
  revert s. induction fuel as [|fuel IH]; intros s reach enough.
  - split; [exact reach|]. cbn.
    unfold DataService.potential in enough. unfold isFinished.
    destruct (control s); [lia|lia|lia|reflexivity].
  - cbn [DataService.run].
    destruct (isFinished s) eqn:running; [split; [exact reach|exact running]|].
    destruct (step (pick s) s) as [s'|] eqn:picked.
    + apply IH.
      * exact (reachable_step _ _ _ _ _ reach picked).
      * apply potential_step in picked. lia.
    + destruct (progress s (invariant_reachable s reach) running) as [s' next].
      rewrite next. apply IH.
      * exact (reachable_step _ _ _ _ _ reach next).
      * apply potential_step in next. lia.
Qed.

Lemma _fetchWithConcurrencyLimit_finishes pick :
  exists s r,
    reachable tasks maxConcurrent s /\ control s = Finished r
    /\ _fetchWithConcurrencyLimit tasks maxConcurrent pick = Some r.
Proof.
  destruct (run_finishes pick (enoughSteps tasks) (initial tasks))
    as [reach finished].
  - constructor.
  - unfold DataService.potential, enoughSteps. cbn. rewrite size_empty. lia.
  - exists (run (enoughSteps tasks) pick (initial tasks)).
    unfold _fetchWithConcurrencyLimit, isFinished in *.
    destruct (control _) as [i|i snapshot|snapshot|r]; try discriminate.
    exists r. auto.
Qed.

(** The slots of a returned array hold the results of their tasks. *)
Lemma finished_results s r :
  Inv s -> control s = Finished (Returns r) ->
  length r = length tasks
  /\ forall i task v,
       tasks !! i = Some task ->
       (r !! i = Some (Some v) <-> task () = Returns v).
Proof.
  intros [Hst Hle Hex Hset Hlen Hful Hrej Hslot Hbnd Hctl] finished.
  rewrite finished in Hctl. destruct Hctl as (-> & none & all).
  split; [exact Hlen|].
  intros i task v lookup. split.
  { intros slot. destruct (Hslot i v slot) as (task' & lookup' & fulfils).
    congruence. }
  intros fulfils.
  assert (inSettled : i ∈ (settled s).*1).
  { destruct (decide (i ∈ (settled s).*1)) as [|notSettled]; [assumption|].
    exfalso. apply (not_elem_of_empty (C := gset nat) i). rewrite <- none.
    apply Hex. split; [|exact notSettled].
    rewrite all. now apply lookup_lt_Some in lookup. }
  apply list_elem_of_fmap in inSettled as [[i' [e|]] [eq inLog]];
    cbn in eq; subst i'.
  - destruct (Hrej i e inLog) as (task' & lookup' & rejects). congruence.
  - destruct (Hful i inLog) as (task' & v' & lookup' & fulfils' & slot).
    congruence.
Qed.

Lemma _fetchWithConcurrencyLimit_all_fulfilled pick :
  (forall task, task ∈ tasks -> exists v, task () = Returns v) ->
  _fetchWithConcurrencyLimit tasks maxConcurrent pick
  = Some (Returns (map slotOf tasks)).
Proof.
  intros fulfil.
  destruct (_fetchWithConcurrencyLimit_finishes pick)
    as (s & r & reach & finished & ->).
  pose proof (invariant_reachable s reach) as inv.
  destruct r as [r|e].
  - destruct (finished_results s r inv finished) as [len slots].
    do 2 f_equal. apply list_eq. intros i.
    rewrite list_lookup_fmap.
    destruct (tasks !! i) as [task|] eqn:lookup; cbn.
    + destruct (fulfil task) as [v fulfils].
      { eapply list_elem_of_lookup_2; eauto. }
      rewrite (proj2 (slots i task v lookup) fulfils). unfold slotOf.
      now rewrite fulfils.
    + apply lookup_ge_None. rewrite len. now apply lookup_ge_None in lookup.
  - destruct inv as [_ _ _ _ _ _ _ _ _ Hctl]. rewrite finished in Hctl.
    destruct Hctl as (j & task & lookup & rejects).
    destruct (fulfil task) as [v fulfils].
    { eapply list_elem_of_lookup_2; eauto. }
    congruence.
Qed.

(** C2.  For [maxConcurrent >= 1], in every state an execution of
    [_fetchWithConcurrencyLimit] can reach, in whatever order the tasks
    settle: the tasks started so far are 0, 1, 2, ... in submission
    order; at most [maxConcurrent] tasks are in the in-flight registry;
    and when the call has returned an array, slot [i] holds a value
    exactly when that value is the result of task [i].  Under every scheduling policy the call finishes, and
    when no task fails it returns the array of all results in
    submission order. *)
Theorem _fetchWithConcurrencyLimit_contract :
  (forall s, reachable tasks maxConcurrent s ->
     started s = seq 0 (length (started s))
     /\ Z.of_nat (size (executing s)) <= maxConcurrent
     /\ forall r, control s = Finished (Returns r) ->
          length r = length tasks
          /\ forall i task v,
               tasks !! i = Some task ->
               (r !! i = Some (Some v) <-> task () = Returns v))
  /\ (forall pick, exists s r,
        reachable tasks maxConcurrent s /\ control s = Finished r
        /\ _fetchWithConcurrencyLimit tasks maxConcurrent pick = Some r)
  /\ ((forall task, task ∈ tasks -> exists v, task () = Returns v) ->
      forall pick,
        _fetchWithConcurrencyLimit tasks maxConcurrent pick
        = Some (Returns (map slotOf tasks))).
Proof.
  split; [|split].
  - intros s reach. pose proof (invariant_reachable s reach) as inv.
    split; [apply inv|]. split; [apply inv|].
    intros r finished. exact (finished_results s r inv finished).
  - exact _fetchWithConcurrencyLimit_finishes.
  - intros fulfil pick.
    exact (_fetchWithConcurrencyLimit_all_fulfilled pick fulfil).
Qed.

End SchedulerFacts.

Lemma _fetchWithConcurrencyLimit_contract_witness :
  DataService._fetchWithConcurrencyLimit Examples.threeTasks 2 Examples.newestFirst
  = Some (Returns [Some 10; Some 20; Some 30]).
Proof.
  refine (proj2 (proj2 (_fetchWithConcurrencyLimit_contract
                          Examples.threeTasks 2 _)) _ Examples.newestFirst).
  - lia.
  - intros task member. unfold Examples.threeTasks in member.
    repeat (apply elem_of_cons in member as [->|member]; [eauto|]).
    now apply elem_of_nil in member.
Defined.

(** ** The retrieval strategies *)

Section StrategyFacts.

Import DataService.

Context {V : Type}.
Variable backend : Backend V.
Variable context : Context.

Local Notation "'backfill'" :=
  (_getLastPointOfPreviousPeriod backend context).

(** *** The sort *)

Lemma insertByTime_Permutation (a : Metric V) (l : list (Metric V)) :
  insertByTime a l ≡ₚ a :: l.
Proof.
  induction l as [|b l IH]; cbn; [reflexivity|].
  destruct (_ <=? _); [reflexivity|].
  rewrite IH. apply Permutation_swap.
Qed.

Lemma sortByTime_Permutation (l : list (Metric V)) : sortByTime l ≡ₚ l.
Proof.
  induction l as [|a l IH]; cbn; [reflexivity|].
  rewrite insertByTime_Permutation. now rewrite IH.
Qed.

Lemma insertByTime_sorted (a : Metric V) (l : list (Metric V)) :
  StronglySorted notAfter l -> StronglySorted notAfter (insertByTime a l).
Proof.
  induction 1 as [|b l sorted IH least]; cbn.
  - repeat constructor.
  - destruct (Z.leb_spec (Date_parse (m_time a)) (Date_parse (m_time b))) as [le|gt].
    + constructor; [now constructor|].
      constructor; [exact le|].
      eapply Forall_impl; [exact least|]. unfold notAfter. intros c; lia.
    + constructor; [exact IH|].
      rewrite insertByTime_Permutation. constructor; [|exact least].
      unfold notAfter. lia.
Qed.

Lemma sortByTime_sorted (l : list (Metric V)) :
  StronglySorted notAfter (sortByTime l).
Proof.
  induction l as [|a l IH]; cbn; [constructor|].
  now apply insertByTime_sorted.
Qed.

(** *** The back-fill point *)

Lemma backfill_time sourceId tagSlugs p :
  backfill sourceId tagSlugs = Returns (Some p) ->
  Date_parse (m_time p) = 1000 * (timeRange_from context / 1000).
Proof.
  unfold _getLastPointOfPreviousPeriod, _toIXONISOString.
  destruct (Z.abs 0 <=? maxTimeValue); [|discriminate].
  destruct (Z.abs (timeRange_from context) <=? maxTimeValue); [|discriminate].
  cbn [mbind outcome_bind].
  destruct (json _) as [[|[d|]]|]; try discriminate.
  destruct (points d) as [[|q qs]|]; try discriminate.
  intros [= <-]. reflexivity.
Qed.

(** The list a strategy appends for the back-fill point. *)
Lemma option_list_backfill sourceId tagSlugs lastPoint :
  backfill sourceId tagSlugs = Returns lastPoint ->
  (length (option_list lastPoint) <= 1)%nat
  /\ Forall (fun p => Date_parse (m_time p)
                      = 1000 * (timeRange_from context / 1000))
       (option_list lastPoint).
Proof.
  intros found. destruct lastPoint as [p|]; cbn.
  - split; [lia|]. repeat constructor. exact (backfill_time _ _ _ found).
  - split; [lia|constructor].
Qed.

(** *** Where the points of a page come from *)

Lemma _fetchRawDataPage_fromPages sourceId tagSlug offset limit retries sent page :
  (_fetchRawDataPage backend context sourceId tagSlug offset limit retries sent).2
  = Returns page ->
  Forall (fromPages backend) page.
Proof.
  funelim (_fetchRawDataPage backend context sourceId tagSlug offset limit
             retries sent); try discriminate.
  - destruct (_fetchRawDataPage backend context sourceId tagSlug offset limit
                (retries - 1) (S sent)) as [events result].
    cbn. auto.
  - cbn. destruct (json _) as [[|data]|] eqn:body; try discriminate.
    intros [= <-]. destruct data as [d|]; [|constructor].
    cbn. destruct (points d) as [pts|] eqn:member; [|constructor].
    apply Forall_forall. intros p inPage.
    exists (pageRequest start end_ sourceId tagSlug offset limit), sent, d, pts.
    auto.
Qed.

Lemma mergePages_Some (results : list (option (list (Metric V))))
    (allMetrics : list (Metric V)) :
  mergePages results = Returns allMetrics ->
  exists pages, results = map Some pages /\ allMetrics = concat pages.
Proof.
  revert allMetrics. induction results as [|[page|] results IH];
    intros allMetrics; cbn.
  - intros [= <-]. now exists [].
  - destruct (mergePages results) as [rest|] eqn:merged; [|discriminate].
    cbn. intros [= <-]. destruct (IH rest eq_refl) as (pages & -> & ->).
    now exists (page :: pages).
  - discriminate.
Qed.

Lemma mergePages_map_Some (pages : list (list (Metric V))) :
  mergePages (map Some pages) = Returns (concat pages).
Proof.
  induction pages as [|page pages IH]; cbn; [reflexivity|].
  now rewrite IH.
Qed.

(** The sequential strategy appends pages, then the back-fill point. *)
Lemma _getAllRawMetrics_shape (fuel : nat) sourceId tagSlugs
    (hasNext : bool) (offset : Z) (metrics result : list (Metric V)) :
  _getAllRawMetrics backend context fuel sourceId tagSlugs hasNext offset metrics
  = Some (Returns result) ->
  exists paged lastPoint,
    result = metrics ++ paged ++ option_list lastPoint
    /\ Forall (fromPages backend) paged
    /\ backfill sourceId tagSlugs = Returns lastPoint.
Proof.
  revert hasNext offset metrics.
  induction fuel as [|fuel IH]; intros hasNext offset metrics; [discriminate|].
  cbn [_getAllRawMetrics]. destruct hasNext; cbn [negb].
  - destruct (_toIXONISOString (timeRange_from context)) as [start|];
      [|discriminate].
    destruct (_toIXONISOString (timeRange_to context)) as [end_|];
      [|discriminate].
    cbv zeta.
    destruct (json _) as [[|[d|]]|] eqn:body; try discriminate.
    destruct (points d) as [page|] eqn:member; [|discriminate].
    intros run. apply IH in run as (paged & lastPoint & -> & fromp & found).
    exists (page ++ paged), lastPoint. split; [now rewrite <- !app_assoc|].
    split; [|exact found].
    apply Forall_app. split; [|exact fromp].
    apply Forall_forall. intros p inPage. red. eauto 10.
  - destruct (backfill sourceId tagSlugs) as [lastPoint|] eqn:found;
      [|discriminate].
    cbn. intros run. exists [], lastPoint. cbn.
    split; [|split; [constructor|reflexivity]].
    destruct lastPoint; injection run as <-; cbn; [reflexivity|].
    now rewrite app_nil_r.
Qed.

(** What the batch of page tasks returns is the list of their pages. *)
Lemma batch_fromPages pick sourceId tagSlug (pagesNeeded : nat)
    (results : list (option (list (Metric V)))) (allMetrics : list (Metric V)) :
  _fetchWithConcurrencyLimit
    (map (fun (i : nat) (_ : unit) =>
            (_fetchRawDataPage backend context sourceId tagSlug
               (Z.of_nat i * queryLimit) queryLimit 3 0).2)
         (seq 0 pagesNeeded)) 10 pick = Some (Returns results) ->
  mergePages results = Returns allMetrics ->
  Forall (fromPages backend) allMetrics.
Proof.
  intros batch merged.
  set (fetchTasks := map _ _) in batch.
  destruct (_fetchWithConcurrencyLimit_finishes fetchTasks 10 ltac:(lia) pick)
    as (s & r & reach & finished & returned).
  rewrite batch in returned. injection returned as <-.
  pose proof (invariant_reachable fetchTasks 10 ltac:(lia) s reach) as inv.
  destruct (finished_results fetchTasks 10 s results inv finished)
    as [len slots].
  apply mergePages_Some in merged as (pages & -> & ->).
  apply Forall_concat, Forall_forall. intros page inPages.
  apply list_elem_of_lookup in inPages as [i slot].
  assert (is_Some (fetchTasks !! i)) as [task lookup].
  { apply lookup_lt_is_Some. rewrite <- len, length_map.
    now apply lookup_lt_Some in slot. }
  assert (fulfils : task () = Returns page).
  { apply (slots i task page lookup). now rewrite list_lookup_fmap, slot. }
  unfold fetchTasks in lookup. rewrite list_lookup_fmap in lookup.
  destruct (seq 0 pagesNeeded !! i) as [k|]; [|discriminate].
  injection lookup as <-.
  exact (_fetchRawDataPage_fromPages _ _ _ _ _ _ _ fulfils).
Qed.

(** The count-prefetch strategy returns pages and the back-fill point,
    in some order. *)
Lemma _getAllRawMetricsParallel_shape pick sourceId tagSlug moreSlugs
    (result : list (Metric V)) :
  _getAllRawMetricsParallel backend context pick sourceId tagSlug moreSlugs
  = Some (Returns result) ->
  exists paged lastPoint,
    result ≡ₚ paged ++ option_list lastPoint
    /\ Forall (fromPages backend) paged
    /\ backfill sourceId (tagSlug :: moreSlugs) = Returns lastPoint.
Proof.
  unfold _getAllRawMetricsParallel.
  destruct (_getTotalCount backend context sourceId tagSlug) as [totalCount|];
    [|discriminate].
  destruct (totalCount =? 0).
  { destruct (backfill sourceId (tagSlug :: moreSlugs)) as [lastPoint|];
      [|discriminate].
    cbn. intros [= <-]. exists [], lastPoint.
    split; [|split; [constructor|reflexivity]]. now destruct lastPoint. }
  destruct (totalCount <=? queryLimit).
  { destruct (_fetchRawDataPage _ _ _ _ _ _ _ _).2 as [data|] eqn:fetched;
      [|discriminate].
    destruct (backfill sourceId (tagSlug :: moreSlugs)) as [lastPoint|];
      [|discriminate].
    cbn. intros [= <-]. exists data, lastPoint.
    split; [|split; [|reflexivity]].
    - destruct lastPoint; cbn; [reflexivity|now rewrite app_nil_r].
    - exact (_fetchRawDataPage_fromPages _ _ _ _ _ _ _ fetched). }
  cbv zeta.
  destruct (_fetchWithConcurrencyLimit _ _ _) as [[results|]|] eqn:batch;
    try discriminate.
  cbn [mbind outcome_bind].
  destruct (mergePages results) as [allMetrics|] eqn:merged; [|discriminate].
  destruct (backfill sourceId (tagSlug :: moreSlugs)) as [lastPoint|];
    [|discriminate].
  cbn. intros [= <-]. exists allMetrics, lastPoint.
  split; [|split; [|reflexivity]].
  - rewrite sortByTime_Permutation.
    destruct lastPoint; cbn; [reflexivity|now rewrite app_nil_r].
  - exact (batch_fromPages _ _ _ _ _ _ batch merged).
Qed.

(** On the path with more than one page the result has been sorted. *)
Lemma _getAllRawMetricsParallel_sorted pick sourceId tagSlug moreSlugs
    (totalCount : Z) (result : list (Metric V)) :
  _getTotalCount backend context sourceId tagSlug = Returns totalCount ->
  queryLimit < totalCount ->
  _getAllRawMetricsParallel backend context pick sourceId tagSlug moreSlugs
  = Some (Returns result) ->
  StronglySorted notAfter result.
Proof.
  intros counted large. unfold _getAllRawMetricsParallel. rewrite counted.
  destruct (Z.eqb_spec totalCount 0) as [->|_]; [discriminate large|].
  destruct (Z.leb_spec totalCount queryLimit) as [|_]; [lia|].
  cbv zeta.
  destruct (_fetchWithConcurrencyLimit _ _ _) as [[results|]|];
    try discriminate.
  cbn [mbind outcome_bind].
  destruct (mergePages results) as [allMetrics|]; [|discriminate].
  destruct (backfill sourceId (tagSlug :: moreSlugs)) as [lastPoint|];
    [|discriminate].
  cbn. intros [= <-]. apply sortByTime_sorted.
Qed.

(** What the batch of page tasks returns is the page of every task, in
    the order of the offsets. *)
Lemma batch_pages pick sourceId tagSlug (pagesNeeded : nat)
    (results : list (option (list (Metric V)))) (allMetrics : list (Metric V)) :
  _fetchWithConcurrencyLimit
    (map (fun (i : nat) (_ : unit) =>
            (_fetchRawDataPage backend context sourceId tagSlug
               (Z.of_nat i * queryLimit) queryLimit 3 0).2)
         (seq 0 pagesNeeded)) 10 pick = Some (Returns results) ->
  mergePages results = Returns allMetrics ->
  exists pages,
    allMetrics = concat pages
    /\ length pages = pagesNeeded
    /\ forall i page,
         pages !! i = Some page ->
         (_fetchRawDataPage backend context sourceId tagSlug
            (Z.of_nat i * queryLimit) queryLimit 3 0).2 = Returns page.
Proof.
  intros batch merged.
  set (fetchTasks := map _ _) in batch.
  destruct (_fetchWithConcurrencyLimit_finishes fetchTasks 10 ltac:(lia) pick)
    as (s & r & reach & finished & returned).
  rewrite batch in returned. injection returned as <-.
  pose proof (invariant_reachable fetchTasks 10 ltac:(lia) s reach) as inv.
  destruct (finished_results fetchTasks 10 s results inv finished)
    as [len slots].
  apply mergePages_Some in merged as (pages & -> & ->).
  exists pages. split; [reflexivity|].
  rewrite length_map in len. unfold fetchTasks in len.
  rewrite length_map, length_seq in len. split; [exact len|].
  intros i page slot.
  assert (lookup : fetchTasks !! i
                   = Some (fun _ : unit =>
                             (_fetchRawDataPage backend context sourceId tagSlug
                                (Z.of_nat i * queryLimit) queryLimit 3 0).2)).
  { unfold fetchTasks. rewrite list_lookup_fmap, lookup_seq_lt; [reflexivity|].
    rewrite <- len. now apply lookup_lt_Some in slot. }
  apply (slots i _ page lookup). now rewrite list_lookup_fmap, slot.
Qed.

(** C1, amended.  On its path for more than one page (a total count
    above the page limit) the count-prefetch strategy returns the merged
    sequence, back-fill point included, in non-decreasing order of time
    and with nothing added or lost: the result holds, as often as they
    occur, the points of page 0, page 1, ... up to the last page needed
    (each as the page fetcher returned it for its offset) and the
    back-fill point if there is one, and nothing else; it is these
    points sorted by time, and equal times may follow each other. *)
Theorem _getAllRawMetricsParallel_multipage_sorted pick sourceId tagSlug
    moreSlugs (totalCount : Z) (result : list (Metric V)) :
  _getTotalCount backend context sourceId tagSlug = Returns totalCount ->
  queryLimit < totalCount ->
  _getAllRawMetricsParallel backend context pick sourceId tagSlug moreSlugs
  = Some (Returns result) ->
  StronglySorted notAfter result
  /\ exists pages lastPoint,
       length pages = Z.to_nat (ceilDiv totalCount queryLimit)
       /\ (forall i page,
             pages !! i = Some page ->
             (_fetchRawDataPage backend context sourceId tagSlug
                (Z.of_nat i * queryLimit) queryLimit 3 0).2 = Returns page)
       /\ backfill sourceId (tagSlug :: moreSlugs) = Returns lastPoint
       /\ result ≡ₚ concat pages ++ option_list lastPoint
       /\ result = sortByTime (concat pages ++ option_list lastPoint).
Proof.
  intros counted large returned.
  split; [exact (_getAllRawMetricsParallel_sorted _ _ _ _ _ _ counted large
                   returned)|].
  revert returned. unfold _getAllRawMetricsParallel. rewrite counted.
  destruct (Z.eqb_spec totalCount 0) as [->|_]; [discriminate large|].
  destruct (Z.leb_spec totalCount queryLimit) as [|_]; [lia|].
  cbv zeta.
  destruct (_fetchWithConcurrencyLimit _ _ _) as [[results|]|] eqn:batch;
    try discriminate.
  cbn [mbind outcome_bind].
  destruct (mergePages results) as [allMetrics|] eqn:merged; [|discriminate].
  destruct (backfill sourceId (tagSlug :: moreSlugs)) as [lastPoint|];
    [|discriminate].
  cbn. intros [= <-].
  destruct (batch_pages _ _ _ _ _ _ batch merged) as (pages & -> & len & each).
  exists pages, lastPoint.
  assert (appended :
    match lastPoint with
    | Some p => concat pages ++ [p]
    | None => concat pages
    end = concat pages ++ option_list lastPoint).
  { destruct lastPoint; cbn; [reflexivity|now rewrite app_nil_r]. }
  rewrite appended.
  split; [exact len|]. split; [exact each|]. split; [reflexivity|].
  split; [apply sortByTime_Permutation|reflexivity].
Qed.

(** C7, amended.  Both strategies return the points of the pages
    together with at most one back-fill point, and the time of the
    back-fill point is the start of the window cut to whole seconds; it
    is the start of the window itself when that is a whole number of
    seconds. *)
Theorem backfill_at_most_once_at_window_start :
  let atStart (p : Metric V) :=
    Date_parse (m_time p) = 1000 * (timeRange_from context / 1000)
    /\ (timeRange_from context mod 1000 = 0 ->
        Date_parse (m_time p) = timeRange_from context) in
  (forall fuel sourceId tagSlugs result,
     _getAllRawMetrics backend context fuel sourceId tagSlugs true 0 []
     = Some (Returns result) ->
     exists paged filled,
       result = paged ++ filled
       /\ Forall (fromPages backend) paged
       /\ (length filled <= 1)%nat /\ Forall atStart filled)
  /\ (forall pick sourceId tagSlug moreSlugs result,
        _getAllRawMetricsParallel backend context pick sourceId tagSlug
          moreSlugs = Some (Returns result) ->
        exists paged filled,
          result ≡ₚ paged ++ filled
          /\ Forall (fromPages backend) paged
          /\ (length filled <= 1)%nat /\ Forall atStart filled).
Proof.
  intros atStart.
  assert (filled_ok : forall sourceId tagSlugs lastPoint,
    backfill sourceId tagSlugs = Returns lastPoint ->
    (length (option_list lastPoint) <= 1)%nat
    /\ Forall atStart (option_list lastPoint)).
  { intros sourceId tagSlugs lastPoint found.
    destruct (option_list_backfill _ _ _ found) as [short times].
    split; [exact short|].
    eapply Forall_impl; [exact times|]. intros p time. split; [exact time|].
    intros whole. rewrite time.
    pose proof (Z.div_mod (timeRange_from context) 1000 ltac:(lia)). lia. }
  split.
  - intros fuel sourceId tagSlugs result returned.
    destruct (_getAllRawMetrics_shape _ _ _ _ _ _ _ returned)
      as (paged & lastPoint & -> & pagedOk & found).
    exists paged, (option_list lastPoint).
    destruct (filled_ok _ _ _ found). auto.
  - intros pick sourceId tagSlug moreSlugs result returned.
    destruct (_getAllRawMetricsParallel_shape _ _ _ _ _ returned)
      as (paged & lastPoint & perm & pagedOk & found).
    exists paged, (option_list lastPoint).
    destruct (filled_ok _ _ _ found). auto.
Qed.

End StrategyFacts.

(** Counterexample to C1.  With one page holding a point at 10 s and a
    back-fill point, both strategies put the back-fill point, whose
    time is 1 s, after the point at 10 s.  And where the result is
    sorted, on the path for several pages, points of equal time stay
    next to each other. *)
Lemma merge_output_not_strictly_ascending :
  (exists a b,
     DataService._getAllRawMetricsParallel Examples.smallBackend Examples.window
       Examples.eager "source" "temperature" [] = Some (Returns [a; b])
     /\ DataService._getAllRawMetrics Examples.smallBackend Examples.window
          2 "source" ["temperature"] true 0 [] = Some (Returns [a; b])
     /\ DataService.Date_parse (DataService.m_time b)
        < DataService.Date_parse (DataService.m_time a))
  /\ (exists a b c rest,
        DataService._getAllRawMetricsParallel Examples.pagedBackend
          Examples.window Examples.eager "source" "temperature" []
        = Some (Returns (a :: b :: c :: rest))
        /\ DataService.Date_parse (DataService.m_time b)
           = DataService.Date_parse (DataService.m_time c)).
Proof.
  split.
  - do 2 eexists. split; [reflexivity|]. split; reflexivity.
  - do 4 eexists. split; [vm_compute; reflexivity|]. reflexivity.
Qed.

Lemma _getAllRawMetricsParallel_multipage_sorted_witness :
  exists result,
    DataService._getAllRawMetricsParallel Examples.pagedBackend Examples.window
      Examples.eager "source" "temperature" [] = Some (Returns result)
    /\ StronglySorted DataService.notAfter result.
Proof.
  eexists. split; [vm_compute; reflexivity|].
  refine (proj1 (_getAllRawMetricsParallel_multipage_sorted
                   Examples.pagedBackend Examples.window Examples.eager
                   "source" "temperature" [] 5001 _ _ _ _)).
  - reflexivity.
  - reflexivity.
  - vm_compute. reflexivity.
Defined.

(** Counterexample to C7: the window starts at 1500 ms and the
    back-fill point is stamped 1000 ms. *)
Lemma backfill_time_is_truncated :
  exists a b,
    DataService._getAllRawMetricsParallel Examples.smallBackend Examples.window
      Examples.eager "source" "temperature" [] = Some (Returns [a; b])
    /\ DataService._getLastPointOfPreviousPeriod Examples.smallBackend
         Examples.window "source" ["temperature"] = Returns (Some b)
    /\ DataService.Date_parse (DataService.m_time b) = 1000
    /\ DataService.timeRange_from Examples.window = 1500.
Proof.
  do 2 eexists. repeat split.
Qed.

Lemma backfill_at_most_once_at_window_start_witness :
  exists paged filled,
    [Examples.point 10 7; Examples.point 1 5] ≡ₚ paged ++ filled
    /\ Forall (DataService.fromPages Examples.smallBackend) paged
    /\ (length filled <= 1)%nat
    /\ Forall (fun p =>
                 DataService.Date_parse (DataService.m_time p)
                 = 1000 * (DataService.timeRange_from Examples.window / 1000)
                 /\ (DataService.timeRange_from Examples.window mod 1000 = 0 ->
                     DataService.Date_parse (DataService.m_time p)
                     = DataService.timeRange_from Examples.window))
         filled.
Proof.
  refine (proj2 (backfill_at_most_once_at_window_start
                   Examples.smallBackend Examples.window)
            Examples.eager "source" "temperature" [] _ _).
  reflexivity.
Defined.

(** ** The points handed to the statistics module *)

Section SampleFacts.

Import DataService.

(** The point [getAllRawMetrics] makes of a wire point. *)
Local Notation "'sampleOf'" :=
  (fun (tagSlug : string) (factor : F64.float) (decimals : Z)
       (x : Metric F64.float) =>
     {| time := Date_parse (m_time x);
        value := F64.roundDecimals
                   (F64.mul (default F64.NaN (m_values x !! tagSlug)) factor)
                   decimals |}).

Lemma mapM_scaleAndRound (factor : F64.float) (decimals : Z)
    (numeric : list (Z * option F64.float))
    (rounded : list (SamplePoint F64.float)) :
  mapM (fun d => v ← scaleAndRound factor decimals d.2;
                 Returns {| time := d.1; value := v |}) numeric
  = Returns rounded ->
  rounded
  = map (fun d => {| time := d.1;
                     value := F64.roundDecimals
                                (F64.mul (default F64.NaN d.2) factor)
                                decimals |}) numeric.
Proof.
  unfold scaleAndRound.
  destruct ((0 <=? decimals) && (decimals <=? 100)).
  - revert rounded. induction numeric as [|d numeric IH]; intros rounded.
    + intros returned. change (Returns [] = Returns rounded) in returned.
      now injection returned as <-.
    + cbn [mapM mbind outcome_bind].
      destruct (mapM _ numeric) as [rest|];
        cbn [mbind outcome_bind]; [|discriminate].
      intros returned.
      change (Returns
                ({| time := d.1;
                    value := F64.roundDecimals
                               (F64.mul (default F64.NaN d.2) factor) decimals |}
                 :: rest) = Returns rounded) in returned.
      injection returned as <-. cbn [map]. now rewrite (IH rest eq_refl).
  - destruct numeric as [|d numeric].
    + intros returned. change (Returns [] = Returns rounded) in returned.
      now injection returned as <-.
    + discriminate.
Qed.

Lemma filter_map_member (tagSlug : string) (fetched : list (Metric F64.float)) :
  List.filter (fun d : Z * option F64.float => negb (isNaN_member d.2))
    (map (fun x => (Date_parse (m_time x), m_values x !! tagSlug)) fetched)
  = map (fun x => (Date_parse (m_time x), m_values x !! tagSlug))
      (List.filter (fun x => negb (isNaN_member (m_values x !! tagSlug)))
         fetched).
Proof.
  induction fetched as [|x fetched IH]; cbn; [reflexivity|].
  destruct (negb _); cbn; now rewrite IH.
Qed.

(** C8, amended.  [getAllRawMetrics] drops the wire points whose value
    for the tag is missing or [NaN], and only those: every other fetched
    point is returned, in order, with its time parsed and its value
    scaled and rounded.  An infinite wire value is not dropped, and
    scaled by a finite non-zero factor it is returned as an infinite
    value. *)
Theorem getAllRawMetrics_drops_only_NaN (backend : Backend F64.float)
    (context : Context) pick (factor : F64.float) (decimals : Z)
    (result : list (SamplePoint F64.float)) :
  getAllRawMetrics backend context pick factor decimals
  = Some (Returns (Some result)) ->
  exists sourceId tagSlug fetched,
    metric context = Some tagSlug
    /\ _getAllRawMetricsParallel backend context pick sourceId tagSlug []
       = Some (Returns fetched)
    /\ result
       = map (sampleOf tagSlug factor decimals)
           (List.filter
              (fun x => negb (isNaN_member (m_values x !! tagSlug))) fetched)
    /\ (forall x s,
          x ∈ fetched ->
          m_values x !! tagSlug = Some (S754_infinity s : F64.float) ->
          sampleOf tagSlug factor decimals x ∈ result)
    /\ (forall s sf m e,
          F64.roundDecimals (F64.mul (S754_infinity s) (S754_finite sf m e))
            decimals = S754_infinity (xorb s sf)).
Proof.
  unfold getAllRawMetrics.
  destruct (metric context) as [tagSlug|]; [|discriminate].
  destruct (resolve_source backend tagSlug) as [[sourceId|]|]; try discriminate.
  destruct (_getAllRawMetricsParallel _ _ _ _ _ _) as [[fetched|]|] eqn:parallel;
    try discriminate.
  cbn [mbind outcome_bind]. cbv zeta. rewrite filter_map_member.
  destruct (mapM _ _) as [rounded|] eqn:mapped; [|discriminate].
  cbn. intros [= <-].
  apply mapM_scaleAndRound in mapped. rewrite map_map in mapped. cbn in mapped.
  exists sourceId, tagSlug, fetched.
  split; [reflexivity|]. split; [exact parallel|]. split; [exact mapped|].
  split; [|reflexivity].
  intros x s inFetched infinite. rewrite mapped.
  apply (list_elem_of_fmap_2 (sampleOf tagSlug factor decimals)).
  apply list_elem_of_In, filter_In. split; [now apply list_elem_of_In|].
  cbv beta. now rewrite infinite.
Qed.

End SampleFacts.

(** Counterexample to C8: a wire value of [Infinity] reaches the
    caller. *)
Lemma infinite_value_is_returned :
  exists p,
    DataService.getAllRawMetrics Examples.overflowBackend Examples.window
      Examples.eager (F64.ofZ 1) 2 = Some (Returns (Some [p]))
    /\ value p = F64.Infinity
    /\ F64.isFinite (value p) = false.
Proof.
  eexists. repeat split.
Qed.

Lemma getAllRawMetrics_drops_only_NaN_witness :
  exists sourceId tagSlug fetched,
    DataService.metric Examples.window = Some tagSlug
    /\ DataService._getAllRawMetricsParallel Examples.overflowBackend
         Examples.window Examples.eager sourceId tagSlug []
       = Some (Returns fetched)
    /\ [ {| time := 10000; value := F64.Infinity |} ]
       = map (fun x =>
                {| time := DataService.Date_parse (DataService.m_time x);
                   value := F64.roundDecimals
                     (F64.mul (default F64.NaN
                                 (DataService.m_values x !! tagSlug))
                        (F64.ofZ 1)) 2 |})
           (List.filter
              (fun x => negb (DataService.isNaN_member
                                (DataService.m_values x !! tagSlug)))
              fetched).
Proof.
  destruct (getAllRawMetrics_drops_only_NaN Examples.overflowBackend
              Examples.window Examples.eager (F64.ofZ 1) 2
              [ {| time := 10000; value := F64.Infinity |} ] eq_refl)
    as (sourceId & tagSlug & fetched & configured & returned & shape & _).
  exists sourceId, tagSlug, fetched. auto.
Defined.

(** ** The two strategies on a synthetic backend *)

Section SyntheticFacts.

Import DataService.

Context {V : Type}.
Variable tagSlug : string.
Variables ascending unordered : list (Metric V).
Variable previous : option (Metric V).
Variable context : Context.
Hypothesis valid : validWindow context.

Local Notation "'synthetic'" :=
  (Synthetic.backend tagSlug ascending unordered previous).

(** The page limit as a number of list elements. *)
Local Notation "'pageSize'" := (Z.to_nat queryLimit).

Lemma pageSize_eq : Z.of_nat pageSize = 5000.
Proof. reflexivity. Qed.

(** The back-fill point as the strategies see it. *)
Local Notation "'restamped'" :=
  (option_map
     (fun p : Metric V =>
        {| m_time := {| epochSeconds := timeRange_from context / 1000 |};
           m_values := m_values p |}) previous).

Lemma synthetic_backfill sourceId tagSlugs :
  _getLastPointOfPreviousPeriod synthetic context sourceId tagSlugs
  = Returns restamped.
Proof.
  destruct valid as [valid_from _].
  unfold _getLastPointOfPreviousPeriod.
  rewrite (_toIXONISOString_valid 0) by (vm_compute; discriminate).
  rewrite (_toIXONISOString_valid _ valid_from).
  cbn. now destruct previous.
Qed.

Lemma synthetic_count sourceId :
  _getTotalCount synthetic context sourceId tagSlug
  = Returns (Z.of_nat (length ascending)).
Proof.
  destruct valid as [valid_from valid_to].
  unfold _getTotalCount.
  rewrite (_toIXONISOString_valid _ valid_from), (_toIXONISOString_valid _ valid_to).
  cbn [mbind outcome_bind]. cbn -[Z.of_nat Z.eqb].
  unfold countMember. cbn -[Z.of_nat Z.eqb].
  rewrite lookup_singleton_eq.
  now destruct (Z.eqb_spec (Z.of_nat (length ascending)) 0) as [->|].
Qed.

Lemma synthetic_page sourceId (offset : Z) :
  (_fetchRawDataPage synthetic context sourceId tagSlug offset queryLimit 3 0).2
  = Returns (Synthetic.serve ascending offset queryLimit).
Proof.
  now rewrite _fetchRawDataPage_unfold_valid by exact valid.
Qed.

(** The sequential strategy walks through the stored points page by
    page and then appends the back-fill point. *)
Lemma synthetic_sequential (fuel : nat) sourceId (done : nat)
    (metrics : list (Metric V)) :
  (2 <= fuel)%nat ->
  (length unordered + pageSize < done + fuel * pageSize)%nat ->
  _getAllRawMetrics synthetic context fuel sourceId [tagSlug] true
    (Z.of_nat done) metrics
  = Some (Returns (metrics ++ drop done unordered ++ option_list restamped)).
Proof.
  destruct valid as [valid_from valid_to].
  pose proof pageSize_eq as size.
  revert done metrics.
  induction fuel as [|fuel IH]; intros done metrics two enough; [lia|].
  cbn [_getAllRawMetrics negb].
  rewrite (_toIXONISOString_valid _ valid_from), (_toIXONISOString_valid _ valid_to).
  cbn [json page_query Synthetic.backend Synthetic.queryOf requestBody r_tags
       map head mbind option_bind t_queries q_order q_offset q_limit
       Examples.ok points default Datatypes.id].
  unfold Synthetic.serve. rewrite Nat2Z.id.
  set (page := take pageSize (drop done unordered)).
  assert (page_length : length page = Nat.min pageSize (length unordered - done)).
  { unfold page. now rewrite length_take, length_drop. }
  destruct (Z.eqb_spec (Z.of_nat (length page)) queryLimit) as [full|short].
  - replace (Z.of_nat done + queryLimit) with (Z.of_nat (done + pageSize))
      by (unfold queryLimit in *; lia).
    assert (length page = pageSize) as full' by (unfold queryLimit in *; lia).
    rewrite IH.
    + do 2 f_equal. rewrite <- app_assoc. f_equal. rewrite app_assoc. f_equal.
      unfold page. rewrite <- (drop_drop unordered).
      apply take_drop.
    + destruct fuel as [|[|fuel]]; lia.
    + lia.
  - assert (length page < pageSize)%nat as short'.
    { unfold queryLimit in *. lia. }
    assert (page = drop done unordered) as ->.
    { unfold page. apply take_ge. rewrite length_drop. lia. }
    destruct fuel as [|fuel]; [lia|].
    cbn [_getAllRawMetrics negb]. rewrite synthetic_backfill.
    cbn [mbind outcome_bind]. do 2 f_equal.
    destruct restamped; cbn; [now rewrite <- app_assoc|].
    now rewrite app_nil_r.
Qed.

(** The pages of the count-prefetch strategy laid end to end. *)
Lemma concat_pages (l : list (Metric V)) (pages : nat) :
  concat (map (fun i => take pageSize (drop (i * pageSize) l)) (seq 0 pages))
  = take (pages * pageSize) l.
Proof.
  induction pages as [|pages IH]; [reflexivity|].
  rewrite seq_S, map_app, concat_app, IH. cbn [map concat Nat.add].
  rewrite app_nil_r, take_take_drop. f_equal. lia.
Qed.

Lemma pages_cover (stored : nat) :
  (stored <= Z.to_nat (ceilDiv (Z.of_nat stored) queryLimit) * pageSize)%nat.
Proof.
  pose proof pageSize_eq as size. unfold ceilDiv, queryLimit in *.
  apply Nat2Z.inj_le. rewrite Nat2Z.inj_mul, size.
  rewrite Z2Nat.id; Z.div_mod_to_equations; lia.
Qed.

Lemma synthetic_batch pick sourceId (pagesNeeded : nat) :
  _fetchWithConcurrencyLimit
    (map (fun (i : nat) (_ : unit) =>
            (_fetchRawDataPage synthetic context sourceId tagSlug
               (Z.of_nat i * queryLimit) queryLimit 3 0).2)
         (seq 0 pagesNeeded)) 10 pick
  = Some (Returns
            (map Some
               (map (fun i => take pageSize (drop (i * pageSize) ascending))
                  (seq 0 pagesNeeded)))).
Proof.
  rewrite _fetchWithConcurrencyLimit_all_fulfilled; [|lia|].
  - do 2 f_equal. rewrite !map_map. apply map_ext. intros i.
    unfold slotOf. rewrite synthetic_page. unfold Synthetic.serve.
    do 3 f_equal. unfold queryLimit. lia.
  - intros task member. apply list_elem_of_fmap in member as [i [-> _]].
    rewrite synthetic_page. eauto.
Qed.

(** C6.  On a synthetic backend, which serves a fixed, finite set of
    points page by page and counts it truthfully, the sequential
    strategy (given a call for every page and two more) and the
    count-prefetch strategy (under every scheduling policy) both return,
    and they return the same points up to order. *)
Theorem strategies_agree_on_synthetic_backend pick sourceId (fuel : nat) :
  ascending ≡ₚ unordered ->
  (length unordered `div` pageSize + 2 <= fuel)%nat ->
  exists sequential parallel,
    _getAllRawMetrics synthetic context fuel sourceId [tagSlug] true 0 []
    = Some (Returns sequential)
    /\ _getAllRawMetricsParallel synthetic context pick sourceId tagSlug []
       = Some (Returns parallel)
    /\ sequential ≡ₚ parallel.
Proof.
  intros same enough.
  pose proof pageSize_eq as size.
  assert (positive : (0 < pageSize)%nat) by lia.
  exists (unordered ++ option_list restamped).
  assert (sequential :
    _getAllRawMetrics synthetic context fuel sourceId [tagSlug] true 0 []
    = Some (Returns (unordered ++ option_list restamped))).
  { change 0 with (Z.of_nat 0). rewrite synthetic_sequential; [reflexivity|lia|].
    pose proof (Nat.div_mod_eq (length unordered) pageSize) as split.
    pose proof (Nat.mod_upper_bound (length unordered) pageSize ltac:(lia))
      as rest.
    revert split rest enough positive.
    generalize (length unordered `div` pageSize)%nat as pages.
    generalize (length unordered `mod` pageSize)%nat as more.
    generalize pageSize as n. intros n more pages. nia. }
  unfold _getAllRawMetricsParallel. rewrite synthetic_count, synthetic_backfill.
  destruct (Z.eqb_spec (Z.of_nat (length ascending)) 0) as [empty|nonempty].
  { assert (ascending = []) as asc_nil by (apply length_zero_iff_nil; lia).
    rewrite asc_nil in same. apply Permutation_nil_l in same.
    eexists. split; [exact sequential|]. split; [reflexivity|].
    rewrite <- same. destruct previous; reflexivity. }
  destruct (Z.leb_spec (Z.of_nat (length ascending)) queryLimit) as [small|large].
  { rewrite synthetic_page. unfold Synthetic.serve.
    change (drop (Z.to_nat 0) ascending) with ascending.
    rewrite take_ge by lia.
    eexists. split; [exact sequential|]. split; [reflexivity|].
    destruct previous; cbn; rewrite same; [reflexivity|].
    now rewrite app_nil_r. }
  cbv zeta. rewrite synthetic_batch.
  cbn [mbind outcome_bind]. rewrite mergePages_map_Some, concat_pages.
  rewrite take_ge by apply pages_cover.
  eexists. split; [exact sequential|]. split; [reflexivity|].
  rewrite sortByTime_Permutation.
  destruct previous; cbn; rewrite same; [reflexivity|]. now rewrite app_nil_r.
Qed.

End SyntheticFacts.

Lemma strategies_agree_on_synthetic_backend_witness :
  exists sequential parallel,
    DataService._getAllRawMetrics
      (Synthetic.backend "temperature"
         [Examples.point 2 20; Examples.point 3 30]
         [Examples.point 3 30; Examples.point 2 20]
         (Some (Examples.point 0 5)))
      Examples.window 2 "source" ["temperature"] true 0 []
    = Some (Returns sequential)
    /\ DataService._getAllRawMetricsParallel
         (Synthetic.backend "temperature"
            [Examples.point 2 20; Examples.point 3 30]
            [Examples.point 3 30; Examples.point 2 20]
            (Some (Examples.point 0 5)))
         Examples.window Examples.eager "source" "temperature" []
       = Some (Returns parallel)
    /\ sequential ≡ₚ parallel.
Proof.
  apply (strategies_agree_on_synthetic_backend "temperature"
           [Examples.point 2 20; Examples.point 3 30]
           [Examples.point 3 30; Examples.point 2 20]
           (Some (Examples.point 0 5)) Examples.window).
  - split; vm_compute; discriminate.
  - apply Permutation_swap.
  - vm_compute. lia.
Defined.

(** * Further properties of the retrieval engine *)

(** ** Timestamps *)

Section TimeFacts.

Import DataService.

(** X1.  [_toIXONISOString] succeeds exactly on valid time values; the
    timestamp it yields parses to a whole second that is not after the
    given time and less than a second before it, and printing that
    second again yields the same timestamp. *)
Theorem _toIXONISOString_truncates (milliSeconds : Z) :
  (Z.abs milliSeconds <= maxTimeValue ->
   exists t,
     _toIXONISOString milliSeconds = Returns t
     /\ Date_parse t <= milliSeconds < Date_parse t + 1000
     /\ Date_parse t mod 1000 = 0
     /\ _toIXONISOString (Date_parse t) = Returns t)
  /\ (maxTimeValue < Z.abs milliSeconds ->
      _toIXONISOString milliSeconds = Throws RangeError).
Proof.
  split.
  - intros valid. exists {| epochSeconds := milliSeconds / 1000 |}.
    split; [now apply _toIXONISOString_valid|].
    unfold Date_parse. cbn [epochSeconds].
    pose proof (Z.div_mod milliSeconds 1000 ltac:(lia)) as split.
    pose proof (Z.mod_pos_bound milliSeconds 1000 ltac:(lia)) as rest.
    split; [lia|]. split.
    + rewrite Z.mul_comm. apply Z.mod_mul. lia.
    + rewrite _toIXONISOString_valid.
      * do 2 f_equal. rewrite Z.mul_comm. apply Z.div_mul. lia.
      * unfold maxTimeValue in *. lia.
  - intros invalid. unfold _toIXONISOString.
    destruct (Z.leb_spec (Z.abs milliSeconds) maxTimeValue); [lia|reflexivity].
Qed.

Lemma _toIXONISOString_truncates_witness :
  exists t,
    DataService._toIXONISOString 1500 = Returns t
    /\ DataService.Date_parse t <= 1500 < DataService.Date_parse t + 1000
    /\ DataService.Date_parse t mod 1000 = 0
    /\ DataService._toIXONISOString (DataService.Date_parse t) = Returns t.
Proof.
  apply (proj1 (_toIXONISOString_truncates 1500)).
  vm_compute. discriminate.
Defined.



End TimeFacts.


(** ** The page fetcher beyond the exhausted case *)

Section RetryFacts.

Import DataService Trace.

Context {V : Type}.
Variable backend : Backend V.
Variable context : Context.
Hypothesis valid : validWindow context.

Local Notation "'requestFor'" :=
  (pageRequest {| epochSeconds := timeRange_from context / 1000 |}
     {| epochSeconds := timeRange_to context / 1000 |}).

Lemma turnedAway_S (request : RequestBody) (retries : Z) (k : nat) :
  turnedAway request retries (S k)
  = Fetched request 429 :: Waited ((4 - retries) * 1000)
    :: turnedAway request (retries - 1) k.
Proof.
  unfold turnedAway. cbn [seq flat_map app]. rewrite Z.sub_0_r. do 2 f_equal.
  generalize 0%nat as start.
  induction k as [|k IH]; intros start; [reflexivity|].
  cbn [seq flat_map app]. rewrite IH. do 4 f_equal. lia.
Qed.

Lemma fetches_turnedAway (request : RequestBody) (k : nat) :
  forall retries, fetches (turnedAway request retries k) = k.
Proof.
  induction k as [|k IH]; intros retries; [reflexivity|].
  rewrite turnedAway_S. unfold fetches in *. cbn. now rewrite IH.
Qed.

(** A call whose first [k] answers are 429 and that still has a retry
    for each of them goes on to answer [k]. *)
Lemma _fetchRawDataPage_turned_away sourceId tagSlug offset limit (k : nat) :
  forall (retries : Z) (sent : nat),
    Z.of_nat k <= retries ->
    (forall j, (j < k)%nat ->
       status (page_query backend
                 (requestFor sourceId tagSlug offset limit) (sent + j)) = 429) ->
    _fetchRawDataPage backend context sourceId tagSlug offset limit retries sent
    = let again :=
        _fetchRawDataPage backend context sourceId tagSlug offset limit
          (retries - Z.of_nat k) (sent + k) in
      (turnedAway (requestFor sourceId tagSlug offset limit) retries k ++ again.1,
       again.2).
Proof.
  induction k as [|k IH]; intros retries sent enough busy.
  - cbn. rewrite Z.sub_0_r, Nat.add_0_r. now destruct (_fetchRawDataPage _ _ _ _ _ _ _ _).
  - rewrite _fetchRawDataPage_unfold_valid by exact valid.
    rewrite <- (Nat.add_0_r sent) at 1. rewrite (busy 0%nat) by lia.
    replace (0 <? retries) with true by (symmetry; apply Z.ltb_lt; lia).
    cbn [Z.eqb Pos.eqb andb]. cbv zeta.
    rewrite IH.
    + cbv zeta. cbn [fst snd].
      replace (retries - 1 - Z.of_nat k) with (retries - Z.of_nat (S k)) by lia.
      replace (S sent + k)%nat with (sent + S k)%nat by lia.
      f_equal. now rewrite turnedAway_S.
    + lia.
    + intros j below. replace (S sent + j)%nat with (sent + S j)%nat by lia.
      apply busy. lia.
Qed.

(** X3.  Recovery from a transient rate limit: when the first [k <= 3]
    answers to a page request are 429 and the next one is not, a call
    with the default three retries sends the request [k + 1] times,
    waits 1 s, 2 s, ... before the retries, and returns what the body
    of answer [k] holds.  No other status is ever retried. *)
Theorem _fetchRawDataPage_recovers sourceId tagSlug offset limit (k : nat) :
  (k <= 3)%nat ->
  (forall j, (j < k)%nat ->
     status (page_query backend (requestFor sourceId tagSlug offset limit) j)
     = 429) ->
  status (page_query backend (requestFor sourceId tagSlug offset limit) k)
  <> 429 ->
  let request := requestFor sourceId tagSlug offset limit in
  let answer := page_query backend request k in
  _fetchRawDataPage backend context sourceId tagSlug offset limit 3 0
  = (turnedAway request 3 k ++ [Fetched request (status answer)],
     readPage answer)
  /\ fetches (turnedAway request 3 k ++ [Fetched request (status answer)])
     = S k.
Proof.
  intros few busy free request answer. split.
  - rewrite (_fetchRawDataPage_turned_away _ _ _ _ k) by (cbn; auto; lia).
    cbv zeta. cbn [Nat.add].
    rewrite (_fetchRawDataPage_unfold_valid _ _ _ _ _ _ _ _ valid).
    cbv zeta. fold request. fold answer.
    replace (status answer =? 429) with false
      by (symmetry; now apply Z.eqb_neq).
    reflexivity.
  - pose proof (fetches_turnedAway request k 3) as counted.
    unfold fetches in *. rewrite List.filter_app, length_app, counted.
    cbn. lia.
Qed.

End RetryFacts.

Lemma _toIXONISOString_Returns (ms : Z) (t : DataService.IsoTime) :
  DataService._toIXONISOString ms = Returns t ->
  Z.abs ms <= DataService.maxTimeValue.
Proof.
  unfold DataService._toIXONISOString.
  destruct (Z.leb_spec (Z.abs ms) DataService.maxTimeValue);
    [auto|discriminate].
Qed.

Lemma _toIXONISOString_Throws (ms : Z) (e : JsError) :
  DataService._toIXONISOString ms = Throws e -> e = RangeError.
Proof.
  unfold DataService._toIXONISOString.
  destruct (_ <=? _); [discriminate|]. now intros [= <-].
Qed.

Section EffortFacts.

Import DataService Trace.

Context {V : Type}.
Variable backend : Backend V.
Variable context : Context.

(** X4.  However the backend answers, a page fetch sends at most one
    request more than it has retries, so it ends; with no retry left it
    sends exactly one request, whatever the status; and over an invalid
    time range it sends none and raises [RangeError]. *)
Theorem _fetchRawDataPage_bounded sourceId tagSlug offset limit
    (retries : Z) (sent : nat) :
  let call :=
    _fetchRawDataPage backend context sourceId tagSlug offset limit retries sent in
  (fetches call.1 <= Z.to_nat retries + 1)%nat
  /\ (validWindow context -> retries <= 0 -> fetches call.1 = 1%nat)
  /\ (~ validWindow context -> call = ([], Throws RangeError)).
Proof.
  cbv zeta. split; [|split].
  - funelim (_fetchRawDataPage backend context sourceId tagSlug offset limit
               retries sent); cbn; try lia.
    destruct (_fetchRawDataPage backend context sourceId tagSlug offset limit
                (retries - 1) (S sent)) as [events result].
    cbn in *. unfold fetches in *. cbn.
    pose proof (proj2 (andb_prop _ _ rateLimited)) as positive.
    apply Z.ltb_lt in positive. lia.
  - intros valid none.
    rewrite _fetchRawDataPage_unfold_valid by exact valid.
    replace (0 <? retries) with false by (symmetry; apply Z.ltb_ge; lia).
    now rewrite andb_false_r.
  - intros invalid.
    funelim (_fetchRawDataPage backend context sourceId tagSlug offset limit
               retries sent);
      repeat match goal with
             | H : _toIXONISOString _ = Throws _ |- _ =>
                 apply _toIXONISOString_Throws in H; subst
             | H : _toIXONISOString _ = Returns _ |- _ =>
                 apply _toIXONISOString_Returns in H
             end;
      try reflexivity; exfalso; apply invalid; now split.
Qed.

End EffortFacts.


(** ** The strategies when the backend misbehaves *)

Section DegradedFacts.

Import DataService Trace.

Context {V : Type}.
Variable backend : Backend V.
Variable context : Context.

Local Notation "'backfill'" :=
  (_getLastPointOfPreviousPeriod backend context).

(** X5.  The sequential strategy has no bound of its own: against a
    backend that answers every page request with a full page it never
    returns, however many calls it is allowed. *)
Theorem _getAllRawMetrics_endless (fuel : nat) sourceId tagSlugs
    (offset : Z) (metrics : list (Metric V)) :
  validWindow context ->
  (forall request sent, exists page,
     json (page_query backend request sent)
     = Some (JsonValue (Some {| points := Some page |}))
     /\ Z.of_nat (length page) = queryLimit) ->
  _getAllRawMetrics backend context fuel sourceId tagSlugs true offset metrics
  = None.
Proof.
  intros [valid_from valid_to] full. revert offset metrics.
  induction fuel as [|fuel IH]; intros offset metrics; [reflexivity|].
  cbn [_getAllRawMetrics negb].
  rewrite (_toIXONISOString_valid _ valid_from), (_toIXONISOString_valid _ valid_to).
  cbv zeta.
  match goal with
  | |- context [page_query backend ?request 0] =>
      destruct (full request 0%nat) as (page & -> & size)
  end.
  cbn [points]. rewrite size, Z.eqb_refl. apply IH.
Qed.

(** A page fetch against answers that carry no points yields the empty
    page, whatever their status. *)
Lemma _fetchRawDataPage_hollow sourceId tagSlug offset limit retries sent :
  validWindow context ->
  (forall request sent, exists data,
     json (page_query backend request sent) = Some (JsonValue data)
     /\ (d ← data; points d) = None) ->
  (_fetchRawDataPage backend context sourceId tagSlug offset limit retries sent).2
  = Returns [].
Proof.
  intros valid hollow.
  remember (Z.to_nat retries) as budget eqn:measure.
  revert retries sent measure.
  induction budget as [|budget IH]; intros retries sent measure;
    rewrite _fetchRawDataPage_unfold_valid by exact valid; cbv zeta;
    match goal with
    | |- context [page_query backend ?request sent] =>
        destruct (hollow request sent) as (data & body & none)
    end;
    destruct (_ && _) eqn:again; cbn [snd];
    try (rewrite body, none; reflexivity).
  - apply andb_prop in again as [_ positive]. apply Z.ltb_lt in positive. lia.
  - apply IH. apply andb_prop in again as [_ positive].
    apply Z.ltb_lt in positive. lia.
Qed.

(** A batch whose pages could all be merged had no failing task. *)
Lemma batch_all_fulfilled (tasks : list (unit -> outcome (list (Metric V))))
    pick (results : list (option (list (Metric V))))
    (allMetrics : list (Metric V)) :
  _fetchWithConcurrencyLimit tasks 10 pick = Some (Returns results) ->
  mergePages results = Returns allMetrics ->
  forall task, task ∈ tasks -> exists v, task () = Returns v.
Proof.
  intros batch merged task member.
  destruct (_fetchWithConcurrencyLimit_finishes tasks 10 ltac:(lia) pick)
    as (s & r & reach & finished & returned).
  rewrite batch in returned. injection returned as <-.
  pose proof (invariant_reachable tasks 10 ltac:(lia) s reach) as inv.
  destruct (finished_results tasks 10 s results inv finished) as [len slots].
  apply mergePages_Some in merged as (pages & -> & _).
  apply list_elem_of_lookup in member as [i lookup].
  assert (is_Some (pages !! i)) as [page slot].
  { apply lookup_lt_is_Some. rewrite length_map in len. rewrite len.
    now apply lookup_lt_Some in lookup. }
  exists page. apply (slots i task page lookup).
  now rewrite list_lookup_fmap, slot.
Qed.

(** The count-prefetch strategy always comes to an end. *)
Lemma _getAllRawMetricsParallel_ends pick sourceId tagSlug moreSlugs :
  is_Some (_getAllRawMetricsParallel backend context pick sourceId tagSlug
             moreSlugs).
Proof.
  unfold _getAllRawMetricsParallel.
  destruct (_getTotalCount backend context sourceId tagSlug) as [totalCount|];
    [|eauto].
  destruct (totalCount =? 0); [eauto|].
  destruct (totalCount <=? queryLimit); [eauto|].
  cbv zeta.
  match goal with
  | |- context [_fetchWithConcurrencyLimit ?tasks 10 pick] =>
      destruct (_fetchWithConcurrencyLimit_finishes tasks 10 ltac:(lia) pick)
        as (s & r & _ & _ & ->)
  end.
  eauto.
Qed.

(** X6.  With a total count of zero the count-prefetch strategy asks
    for no page: whatever the backend would answer to page requests,
    the result is the back-fill point alone, or nothing. *)
Theorem _getAllRawMetricsParallel_empty_window pick sourceId tagSlug moreSlugs
    (pages : RequestBody -> nat -> Response (Metric V)) :
  _getTotalCount backend context sourceId tagSlug = Returns 0 ->
  _getAllRawMetricsParallel (withPages backend pages) context pick
    sourceId tagSlug moreSlugs
  = Some (lastPoint ← backfill sourceId (tagSlug :: moreSlugs);
          Returns (option_list lastPoint)).
Proof.
  intros empty. unfold _getAllRawMetricsParallel.
  change (_getTotalCount (withPages backend pages) context sourceId tagSlug)
    with (_getTotalCount backend context sourceId tagSlug).
  rewrite empty. cbn [Z.eqb].
  change (_getLastPointOfPreviousPeriod (withPages backend pages) context)
    with (_getLastPointOfPreviousPeriod backend context).
  destruct (backfill sourceId (tagSlug :: moreSlugs)) as [[p|]|]; reflexivity.
Qed.

(** X7.  The result of the count-prefetch strategy does not depend on
    the order in which the page requests complete: what it returns
    under one scheduling policy it returns under every policy. *)
Theorem _getAllRawMetricsParallel_order_independent pick pick'
    sourceId tagSlug moreSlugs (result : list (Metric V)) :
  _getAllRawMetricsParallel backend context pick sourceId tagSlug moreSlugs
  = Some (Returns result) ->
  _getAllRawMetricsParallel backend context pick' sourceId tagSlug moreSlugs
  = Some (Returns result).
Proof.
  unfold _getAllRawMetricsParallel.
  destruct (_getTotalCount backend context sourceId tagSlug) as [totalCount|];
    [|discriminate].
  destruct (totalCount =? 0); [auto|].
  destruct (totalCount <=? queryLimit); [auto|].
  cbv zeta.
  destruct (_fetchWithConcurrencyLimit _ _ pick) as [[results|]|] eqn:batch;
    try discriminate.
  cbn [mbind outcome_bind].
  destruct (mergePages results) as [allMetrics|] eqn:merged; [|discriminate].
  intros returned.
  pose proof (batch_all_fulfilled _ _ _ _ batch merged) as fulfil.
  rewrite (_fetchWithConcurrencyLimit_all_fulfilled _ 10 ltac:(lia) pick fulfil)
    in batch.
  rewrite (_fetchWithConcurrencyLimit_all_fulfilled _ 10 ltac:(lia) pick' fulfil).
  injection batch as ->.
  cbn [mbind outcome_bind]. now rewrite merged.
Qed.

(** X8.  Fail-fast on the path for several pages: when the fetch of one
    of the pages raises, the count-prefetch strategy raises too, under
    every scheduling policy; the pages that were fetched are not
    returned. *)
Theorem _getAllRawMetricsParallel_fail_fast pick sourceId tagSlug moreSlugs
    (totalCount : Z) (i : nat) (e : JsError) :
  _getTotalCount backend context sourceId tagSlug = Returns totalCount ->
  queryLimit < totalCount ->
  (i < Z.to_nat (ceilDiv totalCount queryLimit))%nat ->
  (_fetchRawDataPage backend context sourceId tagSlug
     (Z.of_nat i * queryLimit) queryLimit 3 0).2 = Throws e ->
  exists e',
    _getAllRawMetricsParallel backend context pick sourceId tagSlug moreSlugs
    = Some (Throws e').
Proof.
  intros counted large inRange fails.
  destruct (_getAllRawMetricsParallel_ends pick sourceId tagSlug moreSlugs)
    as [[result|e'] ended]; [|eauto].
  exfalso. revert ended. unfold _getAllRawMetricsParallel. rewrite counted.
  destruct (Z.eqb_spec totalCount 0) as [->|_]; [discriminate large|].
  destruct (Z.leb_spec totalCount queryLimit) as [|_]; [lia|].
  cbv zeta.
  destruct (_fetchWithConcurrencyLimit _ _ pick) as [[results|]|] eqn:batch;
    try discriminate.
  cbn [mbind outcome_bind].
  destruct (mergePages results) as [allMetrics|] eqn:merged; [|discriminate].
  intros _.
  destruct (batch_all_fulfilled _ _ _ _ batch merged
              (fun _ : unit =>
                 (_fetchRawDataPage backend context sourceId tagSlug
                    (Z.of_nat i * queryLimit) queryLimit 3 0).2))
    as [v fulfils].
  - apply (list_elem_of_fmap_2
             (fun (i : nat) (_ : unit) =>
                (_fetchRawDataPage backend context sourceId tagSlug
                   (Z.of_nat i * queryLimit) queryLimit 3 0).2)).
    apply list_elem_of_In, in_seq. lia.
  - cbv beta in fulfils. congruence.
Qed.

(** X9.  When the answers to page requests carry no points (an error
    object, say), the two strategies part: the count-prefetch strategy
    takes every page to be empty and returns the back-fill point alone,
    while the sequential strategy raises a [TypeError]. *)
Theorem strategies_part_on_hollow_pages pick sourceId tagSlug
    (totalCount : Z) (lastPoint : option (Metric V)) (fuel : nat) :
  validWindow context ->
  (forall request sent, exists data,
     json (page_query backend request sent) = Some (JsonValue data)
     /\ (d ← data; points d) = None) ->
  _getTotalCount backend context sourceId tagSlug = Returns totalCount ->
  totalCount <> 0 ->
  backfill sourceId [tagSlug] = Returns lastPoint ->
  _getAllRawMetricsParallel backend context pick sourceId tagSlug []
  = Some (Returns (option_list lastPoint))
  /\ _getAllRawMetrics backend context (S fuel) sourceId [tagSlug] true 0 []
     = Some (Throws TypeError).
Proof.
  intros valid hollow counted some found. split.
  - unfold _getAllRawMetricsParallel. rewrite counted, found.
    destruct (Z.eqb_spec totalCount 0) as [|_]; [contradiction|].
    destruct (totalCount <=? queryLimit).
    + rewrite _fetchRawDataPage_hollow by assumption.
      now destruct lastPoint.
    + cbv zeta.
      rewrite (_fetchWithConcurrencyLimit_all_fulfilled _ 10 ltac:(lia)).
      * rewrite map_map. unfold slotOf.
        erewrite map_ext
          by (intros; rewrite _fetchRawDataPage_hollow by assumption;
              reflexivity).
        cbn [mbind outcome_bind].
        generalize (seq 0 (Z.to_nat (ceilDiv totalCount queryLimit))) as indices.
        intros indices.
        assert (merged : mergePages (map (fun _ : nat => Some []) indices)
                         = Returns ([] : list (Metric V))).
        { induction indices as [|i indices IH]; [reflexivity|].
          cbn. now rewrite IH. }
        rewrite merged. cbn [mbind outcome_bind].
        now destruct lastPoint.
      * intros task member.
        apply list_elem_of_fmap in member as (i & -> & _).
        rewrite _fetchRawDataPage_hollow by assumption. eauto.
  - destruct valid as [valid_from valid_to].
    cbn [_getAllRawMetrics negb].
    rewrite (_toIXONISOString_valid _ valid_from),
      (_toIXONISOString_valid _ valid_to).
    cbv zeta.
    match goal with
    | |- context [page_query backend ?request 0] =>
        destruct (hollow request 0%nat) as (data & -> & none)
    end.
    destruct data as [d|]; [|reflexivity].
    cbn in none. now rewrite none.
Qed.

End DegradedFacts.

(** ** More on the concurrency limiter *)

Section LimiterFacts.

Import DataService.

Context {T : Type}.
Variable tasks : list (unit -> outcome T).

(** Below a limit of one nothing changes: the body waits after every
    task it starts. *)
Lemma step_limit_below_one (maxConcurrent : Z) ev (s : State T) :
  maxConcurrent <= 1 ->
  step tasks maxConcurrent ev s = step tasks 1 ev s.
Proof.
  intros low. unfold step.
  destruct ev as [|index]; [|reflexivity].
  destruct (control s) as [i|i snapshot|snapshot|r]; try reflexivity.
  destruct (tasks !! i) as [task|]; [|reflexivity].
  assert (0 < size ({[ i ]} ∪ executing s))%nat as positive.
  { rewrite size_union_alt, size_singleton. lia. }
  destruct (Z.leb_spec maxConcurrent (Z.of_nat (size ({[ i ]} ∪ executing s))));
    destruct (Z.leb_spec 1 (Z.of_nat (size ({[ i ]} ∪ executing s))));
    try reflexivity; lia.
Qed.

Lemma fallback_limit_below_one (maxConcurrent : Z) (s : State T) :
  maxConcurrent <= 1 ->
  fallback tasks maxConcurrent s = fallback tasks 1 s.
Proof.
  intros low. unfold fallback.
  now rewrite (step_limit_below_one maxConcurrent) by exact low.
Qed.

Lemma run_limit_below_one (maxConcurrent : Z) pick fuel (s : State T) :
  maxConcurrent <= 1 ->
  run tasks maxConcurrent fuel pick s = run tasks 1 fuel pick s.
Proof.
  intros low. revert s. induction fuel as [|fuel IH]; intros s; [reflexivity|].
  cbn [run].
  rewrite (fallback_limit_below_one maxConcurrent) by exact low.
  rewrite !(step_limit_below_one maxConcurrent) by exact low.
  destruct (isFinished s); [reflexivity|].
  destruct (step tasks 1 (pick s) s) as [s'|]; [apply IH|].
  destruct (step tasks 1 (fallback tasks 1 s) s); [apply IH|reflexivity].
Qed.

(** X10.  A limit of zero or less is no error and not "no limit": the
    limiter then behaves as with a limit of one.  It returns what it
    returns for the limit one, and never has more than one task in
    flight. *)
Theorem _fetchWithConcurrencyLimit_limit_below_one (maxConcurrent : Z) :
  maxConcurrent <= 1 ->
  (forall pick,
     _fetchWithConcurrencyLimit tasks maxConcurrent pick
     = _fetchWithConcurrencyLimit tasks 1 pick)
  /\ (forall s, reachable tasks maxConcurrent s ->
        (size (executing s) <= 1)%nat).
Proof.
  intros low. split.
  - intros pick. unfold _fetchWithConcurrencyLimit.
    now rewrite run_limit_below_one.
  - intros s reach.
    assert (reach1 : reachable tasks 1 s).
    { induction reach as [|s ev s' _ IH enabled]; [constructor|].
      rewrite step_limit_below_one in enabled by exact low.
      econstructor; eauto. }
    pose proof (inv_bound _ _ _
                  (invariant_reachable tasks 1 ltac:(lia) s reach1)).
    lia.
Qed.

(** X11.  The limiter raises no error of its own: when the call is
    rejected with [e], a task of the list was rejected with [e].  With
    an empty task list it returns the empty array. *)
Theorem _fetchWithConcurrencyLimit_raises_task_errors (maxConcurrent : Z)
    pick (e : JsError) :
  1 <= maxConcurrent ->
  (_fetchWithConcurrencyLimit tasks maxConcurrent pick = Some (Throws e) ->
   exists i task, tasks !! i = Some task /\ task () = Throws e)
  /\ (tasks = [] ->
      _fetchWithConcurrencyLimit tasks maxConcurrent pick = Some (Returns [])).
Proof.
  intros atLeastOne. split.
  - intros rejected.
    destruct (_fetchWithConcurrencyLimit_finishes tasks maxConcurrent
                atLeastOne pick) as (s & r & reach & finished & returned).
    rewrite rejected in returned. injection returned as <-.
    pose proof (inv_control _ _ _
                  (invariant_reachable tasks maxConcurrent atLeastOne s reach))
      as atEnd.
    now rewrite finished in atEnd.
  - intros ->.
    rewrite (_fetchWithConcurrencyLimit_all_fulfilled [] maxConcurrent
               atLeastOne pick); [reflexivity|].
    intros task member. now apply elem_of_nil in member.
Qed.

End LimiterFacts.

Lemma _fetchWithConcurrencyLimit_limit_below_one_witness :
  DataService._fetchWithConcurrencyLimit Examples.threeTasks 0 Examples.newestFirst
  = DataService._fetchWithConcurrencyLimit Examples.threeTasks 1 Examples.newestFirst.
Proof.
  exact (proj1 (_fetchWithConcurrencyLimit_limit_below_one
                  Examples.threeTasks 0 ltac:(lia)) Examples.newestFirst).
Defined.

Lemma _fetchWithConcurrencyLimit_raises_task_errors_witness :
  DataService._fetchWithConcurrencyLimit ([] : list (unit -> outcome Z)) 10
    Examples.newestFirst = Some (Returns []).
Proof.
  exact (proj2 (_fetchWithConcurrencyLimit_raises_task_errors
                  [] 10 Examples.newestFirst TypeError ltac:(lia)) eq_refl).
Defined.

(** ** The final sort of the count-prefetch strategy *)

Section SortFacts.

Import DataService.

Context {V : Type}.

Local Notation "'at_time' t" :=
  (fun m : Metric V => Date_parse (m_time m) =? t) (at level 10).

Lemma insertByTime_at_time (t : Z) (a : Metric V) (l : list (Metric V)) :
  List.filter (at_time t) (insertByTime a l)
  = List.filter (at_time t) (a :: l).
Proof.
  induction l as [|b l IH]; [reflexivity|].
  cbn [insertByTime].
  destruct (Z.leb_spec (Date_parse (m_time a)) (Date_parse (m_time b)))
    as [le|gt]; [reflexivity|].
  cbn [List.filter] in *. rewrite IH.
  destruct (Z.eqb_spec (Date_parse (m_time a)) t) as [here|];
    destruct (Z.eqb_spec (Date_parse (m_time b)) t) as [there|];
    try reflexivity; lia.
Qed.

(** X12.  The sort that ends [_getAllRawMetricsParallel] only reorders:
    its result holds the same points, in ascending time; points with
    the same time keep the order they had (pages in offset order, the
    back-fill point last); and points already in ascending order are
    returned as they are. *)
Theorem sortByTime_stable (l : list (Metric V)) :
  sortByTime l ≡ₚ l
  /\ StronglySorted notAfter (sortByTime l)
  /\ (forall t, List.filter (at_time t) (sortByTime l)
                = List.filter (at_time t) l)
  /\ (StronglySorted notAfter l -> sortByTime l = l).
Proof.
  split; [apply sortByTime_Permutation|].
  split; [apply sortByTime_sorted|]. split.
  - intros t. induction l as [|a l IH]; [reflexivity|].
    cbn [sortByTime foldr]. rewrite insertByTime_at_time.
    cbn [List.filter]. fold (sortByTime l). now rewrite IH.
  - induction 1 as [|a l sorted IH least]; [reflexivity|].
    cbn [sortByTime foldr]. fold (sortByTime l). rewrite IH.
    destruct l as [|b l]; [reflexivity|].
    cbn [insertByTime]. apply Forall_cons in least as [first _].
    unfold notAfter in first.
    now destruct (Z.leb_spec (Date_parse (m_time a)) (Date_parse (m_time b)));
      [|lia].
Qed.

End SortFacts.

(** ** The histogram of the chart service *)

Section HistogramFacts.

Import ChartService Histogram.

Lemma sameValueZero_refl (x : F64.float) : sameValueZero x x = true.
Proof.
  destruct x as [s|s| |s m e]; cbn; try reflexivity.
  - now destruct s.
  - rewrite Pos.eqb_refl, Z.eqb_refl. now destruct s.
Qed.

Lemma sameValueZero_spec (x y : F64.float) :
  sameValueZero x y = true
  <-> x = y \/ exists s s', x = S754_zero s /\ y = S754_zero s'.
Proof.
  split.
  - destruct x as [s|s| |s m e], y as [s'|s'| |s' m' e']; cbn;
      try discriminate; eauto.
    + intros same. apply Bool.eqb_prop in same. left. congruence.
    + intros same. apply andb_prop in same as [same exponent].
      apply andb_prop in same as [sign mantissa].
      apply Bool.eqb_prop in sign. apply Pos.eqb_eq in mantissa.
      apply Z.eqb_eq in exponent. left. congruence.
  - intros [->|(s & s' & -> & ->)]; [apply sameValueZero_refl|reflexivity].
Qed.

Lemma sameValueZero_sym (x y : F64.float) :
  sameValueZero x y = sameValueZero y x.
Proof.
  apply eq_true_iff_eq. rewrite !sameValueZero_spec.
  split; (intros [->|(s & s' & -> & ->)]; [left|right]; eauto).
Qed.

Lemma sameValueZero_trans (x y z : F64.float) :
  sameValueZero x y = true -> sameValueZero y z = true ->
  sameValueZero x z = true.
Proof.
  intros xy yz. apply sameValueZero_spec in xy, yz.
  apply sameValueZero_spec.
  destruct xy as [->|(s & s' & -> & ->)]; [exact yz|].
  destruct yz as [<-|(t & t' & same & ->)]; right; eauto.
Qed.

(** The key stored for a value is the value as far as a [Map] can
    tell. *)
Lemma sameValueZero_keyOf (v k : F64.float) :
  sameValueZero (keyOf v) k = sameValueZero v k.
Proof.
  now destruct v.
Qed.

(** Counting a reading adds one to the count of its key and leaves the
    other counts alone. *)
Lemma get_countValue (k v : F64.float) (valueCounts : list (F64.float * Z)) :
  get k (countValue v valueCounts)
  = get k valueCounts + (if sameValueZero k v then 1 else 0).
Proof.
  induction valueCounts as [|[k' c] rest IH]; cbn [countValue get].
  - rewrite sameValueZero_keyOf, (sameValueZero_sym v k).
    now destruct (sameValueZero k v).
  - destruct (sameValueZero k' v) eqn:hit; cbn [get].
    + destruct (sameValueZero k' k) eqn:here.
      * rewrite sameValueZero_sym in here.
        now rewrite (sameValueZero_trans _ _ _ here hit).
      * destruct (sameValueZero k v) eqn:there; [|lia].
        rewrite sameValueZero_sym in there.
        rewrite (sameValueZero_trans _ _ _ hit there) in here. discriminate.
    + destruct (sameValueZero k' k) eqn:here; [|exact IH].
      destruct (sameValueZero k v) eqn:there; [|lia].
      rewrite (sameValueZero_trans _ _ _ here there) in hit. discriminate.
Qed.

Lemma countValue_keys (P : F64.float -> Prop) (v : F64.float)
    (valueCounts : list (F64.float * Z)) :
  Forall (fun q => P q.1) valueCounts -> P (keyOf v) ->
  Forall (fun q => P q.1) (countValue v valueCounts).
Proof.
  intros keys new.
  induction keys as [|[k c] rest first keys IH]; cbn [countValue].
  - repeat constructor. exact new.
  - destruct (sameValueZero k v); constructor; auto.
Qed.

Lemma countValue_distinct (v : F64.float) (valueCounts : list (F64.float * Z)) :
  distinctKeys valueCounts -> distinctKeys (countValue v valueCounts).
Proof.
  unfold distinctKeys.
  induction 1 as [|[k c] rest sorted IH least]; cbn [countValue].
  - repeat constructor.
  - destruct (sameValueZero k v) eqn:hit.
    + constructor; assumption.
    + constructor; [exact IH|].
      apply (countValue_keys (fun k' => sameValueZero k k' = false));
        [assumption|].
      now rewrite sameValueZero_sym, sameValueZero_keyOf, sameValueZero_sym.
Qed.

Lemma countValue_positive (v : F64.float) (valueCounts : list (F64.float * Z)) :
  Forall (fun q => 1 <= q.2) valueCounts ->
  Forall (fun q => 1 <= q.2) (countValue v valueCounts).
Proof.
  induction 1 as [|[k c] rest first positive IH]; cbn [countValue].
  - repeat constructor. cbn. lia.
  - destruct (sameValueZero k v); constructor; auto. cbn in *. lia.
Qed.

Lemma countValue_total (v : F64.float) (valueCounts : list (F64.float * Z)) :
  foldr Z.add 0 (countValue v valueCounts).*2
  = foldr Z.add 0 valueCounts.*2 + 1.
Proof.
  induction valueCounts as [|[k c] rest IH]; cbn [countValue]; [reflexivity|].
  destruct (sameValueZero k v); cbn in *; lia.
Qed.

(** What the counting loop keeps, from any map it starts with. *)
Lemma counting_loop (data : list (SamplePoint F64.float))
    (valueCounts : list (F64.float * Z)) :
  let counted :=
    fold_left (fun counts point => countValue (value point) counts)
      data valueCounts in
  (forall k, get k counted = get k valueCounts + occurrences k data)
  /\ (distinctKeys valueCounts -> distinctKeys counted)
  /\ (Forall (fun q => 1 <= q.2) valueCounts ->
      Forall (fun q => 1 <= q.2) counted)
  /\ foldr Z.add 0 counted.*2
     = foldr Z.add 0 valueCounts.*2 + Z.of_nat (length data).
Proof.
  revert valueCounts.
  induction data as [|d data IH]; intros valueCounts; cbn [fold_left].
  - unfold occurrences. cbn. repeat split; auto; lia.
  - destruct (IH (countValue (value d) valueCounts))
      as (gets & distinct & positive & total).
    cbv zeta. repeat split.
    + intros k. rewrite gets, get_countValue. unfold occurrences.
      cbn [List.filter]. destruct (sameValueZero k (value d)); cbn [length]; lia.
    + intros before. apply distinct. now apply countValue_distinct.
    + intros before. apply positive. now apply countValue_positive.
    + rewrite total, countValue_total. cbn [length]. lia.
Qed.

(** With distinct keys an entry is what [get] finds for its key. *)
Lemma get_entry (k : F64.float) (c : Z) (valueCounts : list (F64.float * Z)) :
  distinctKeys valueCounts -> (k, c) ∈ valueCounts -> get k valueCounts = c.
Proof.
  unfold distinctKeys.
  induction 1 as [|[k' c'] rest sorted IH least]; intros member.
  - now apply elem_of_nil in member.
  - cbn [get]. apply elem_of_cons in member as [[= <- <-]|member].
    + now rewrite sameValueZero_refl.
    + rewrite Forall_forall in least.
      pose proof (least (k, c) member) as other. cbn in other.
      rewrite other. auto.
Qed.

(** What [get] finds is an entry, under a key equal to the one asked
    for. *)
Lemma get_found (v : F64.float) (valueCounts : list (F64.float * Z)) :
  get v valueCounts = 0
  \/ exists k, (k, get v valueCounts) ∈ valueCounts
               /\ sameValueZero k v = true.
Proof.
  induction valueCounts as [|[k c] rest IH]; [now left|].
  cbn [get]. destruct (sameValueZero k v) eqn:hit.
  - right. exists k. split; [left|exact hit].
  - destruct IH as [none|(k' & member & same)]; [now left|].
    right. exists k'. split; [now right|exact same].
Qed.

Lemma occurrences_member (d : SamplePoint F64.float)
    (data : list (SamplePoint F64.float)) :
  d ∈ data -> 1 <= occurrences (value d) data.
Proof.
  intros member. unfold occurrences.
  assert (d ∈ List.filter (fun d' => sameValueZero (value d) (value d')) data)
    as kept.
  { apply list_elem_of_In, filter_In. split; [now apply list_elem_of_In|].
    apply sameValueZero_refl. }
  destruct (List.filter _ data); [now apply elem_of_nil in kept|].
  cbn [length]. lia.
Qed.

Lemma occurrences_same (k v : F64.float) (data : list (SamplePoint F64.float)) :
  sameValueZero k v = true -> occurrences k data = occurrences v data.
Proof.
  intros same. unfold occurrences. do 2 f_equal.
  apply filter_ext. intros d. apply eq_true_iff_eq. split; intros other.
  - rewrite sameValueZero_sym in same.
    exact (sameValueZero_trans _ _ _ same other).
  - exact (sameValueZero_trans _ _ _ same other).
Qed.

Lemma get_valueCountsOf (k : F64.float) (data : list (SamplePoint F64.float)) :
  get k (valueCountsOf data) = occurrences k data.
Proof.
  unfold valueCountsOf.
  rewrite (proj1 (counting_loop data []) k). cbn [get]. lia.
Qed.

Lemma histogram_entries (data : list (SamplePoint F64.float)) :
  (forall k c, (k, c) ∈ valueCountsOf data ->
     c = occurrences k data /\ 1 <= c)
  /\ (forall d, d ∈ data ->
        exists k, (k, occurrences (value d) data) ∈ valueCountsOf data
                  /\ sameValueZero k (value d) = true)
  /\ distinctKeys (valueCountsOf data)
  /\ foldr Z.add 0 (valueCountsOf data).*2 = Z.of_nat (length data).
Proof.
  destruct (counting_loop data []) as (_ & distinct & positive & total).
  fold (valueCountsOf data) in distinct, positive, total.
  assert (keys : distinctKeys (valueCountsOf data))
    by (apply distinct; constructor).
  split; [|split; [|split]].
  - intros k c entry. split.
    + rewrite <- get_valueCountsOf. symmetry. now apply get_entry.
    + specialize (positive ltac:(constructor)).
      rewrite Forall_forall in positive. exact (positive (k, c) entry).
  - intros d member. pose proof (occurrences_member d data member) as some.
    destruct (get_found (value d) (valueCountsOf data))
      as [none|(k & entry & same)].
    + rewrite get_valueCountsOf in none. lia.
    + rewrite get_valueCountsOf in entry. eauto.
  - exact keys.
  - exact total.
Qed.

(** X13.  The value counts are a histogram of the readings: every entry
    counts the readings whose value is its key, and counts at least
    one; every reading has its entry; no key occurs twice, with [NaN]
    one key and the two zeros one key; and the counts add up to the
    number of readings. *)
Theorem valueCountsOf_histogram (data : list (SamplePoint F64.float)) :
  (forall k c, (k, c) ∈ valueCountsOf data ->
     c = occurrences k data /\ 1 <= c)
  /\ (forall d, d ∈ data ->
        exists k, (k, occurrences (value d) data) ∈ valueCountsOf data
                  /\ sameValueZero k (value d) = true)
  /\ distinctKeys (valueCountsOf data)
  /\ foldr Z.add 0 (valueCountsOf data).*2 = Z.of_nat (length data).
Proof.
  exact (histogram_entries data).
Qed.

Lemma fold_left_max (counts : list Z) (c : Z) :
  let highest := fold_left Z.max counts c in
  highest ∈ c :: counts /\ Forall (fun c' => c' <= highest) (c :: counts).
Proof.
  revert c. induction counts as [|c' counts IH]; intros c; cbn [fold_left].
  - split; [left|]. repeat constructor. lia.
  - destruct (IH (Z.max c c')) as [member bound]. cbv zeta. split.
    + apply elem_of_cons in member as [->|member].
      * destruct (Z.max_spec c c') as [[_ ->]|[_ ->]];
          [right; left|left].
      * right. now right.
    + apply Forall_cons in bound as [first bound].
      constructor; [lia|]. constructor; [lia|exact bound].
Qed.

(** The height of the histogram, as an integer. *)
Lemma maxCount_highest (data : list (SamplePoint F64.float)) :
  data <> [] ->
  exists mode c,
    maxCount (valueCountsOf data) = F64.ofZ c
    /\ (mode, c) ∈ valueCountsOf data
    /\ forall v, occurrences v data <= c.
Proof.
  intros nonempty.
  destruct (histogram_entries data) as (entries & present & _ & total).
  destruct (valueCountsOf data) as [|[k0 c0] rest] eqn:counts.
  { destruct data; [congruence|]. cbn in total. lia. }
  destruct (fold_left_max rest.*2 c0) as [member bound].
  change (c0 :: rest.*2) with (((k0, c0) :: rest).*2) in member, bound.
  apply list_elem_of_fmap in member as ([mode c] & highest & member).
  cbn in highest. exists mode, c. split; [|split].
  - cbn [maxCount]. now rewrite highest.
  - exact member.
  - intros v. rewrite <- get_valueCountsOf, counts.
    destruct (get_found v ((k0, c0) :: rest)) as [none|(k & entry & _)].
    + destruct (entries mode c member) as [_ some]. lia.
    + rewrite Forall_forall in bound. rewrite <- highest.
      apply bound. apply list_elem_of_fmap.
      now exists (k, get v ((k0, c0) :: rest)).
Qed.

(** X14.  The height [maxY] handed to the curve generator is the number
    of readings of the most frequent value: for at least one reading it
    is the count of some reading's value, no value occurs more often,
    and it lies between 1 and the number of readings. *)
Theorem maxCount_is_mode_count (data : list (SamplePoint F64.float)) :
  data <> [] ->
  exists d c,
    d ∈ data
    /\ maxCount (valueCountsOf data) = F64.ofZ c
    /\ c = occurrences (value d) data
    /\ (forall v, occurrences v data <= c)
    /\ 1 <= c <= Z.of_nat (length data).
Proof.
  intros nonempty.
  destruct (maxCount_highest data nonempty) as (mode & c & height & entry & most).
  destruct (histogram_entries data) as (entries & _).
  destruct (entries mode c entry) as [counts some].
  assert (exists d, d ∈ data /\ sameValueZero mode (value d) = true)
    as (d & member & same).
  { unfold occurrences in counts.
    destruct (List.filter _ data) as [|d kept] eqn:filtered;
      [cbn in counts; lia|].
    assert (In d (List.filter
                    (fun d => sameValueZero mode (value d)) data)) as inside
      by (rewrite filtered; now left).
    apply filter_In in inside as [inside same].
    exists d. split; [now apply list_elem_of_In|exact same]. }
  exists d, c. split; [exact member|]. split; [exact height|].
  split; [now rewrite <- (occurrences_same mode)|].
  split; [exact most|]. split; [exact some|].
  rewrite counts. unfold occurrences. apply inj_le, filter_length_le.
Qed.

(** X15.  The order of the readings does not matter to the histogram:
    readings in another order (sorted by value, as the chart service
    sorts them before counting) give every key the same count and the
    histogram the same height. *)
Theorem valueCountsOf_order_independent
    (data data' : list (SamplePoint F64.float)) :
  data ≡ₚ data' ->
  (forall v, get v (valueCountsOf data) = get v (valueCountsOf data'))
  /\ maxCount (valueCountsOf data) = maxCount (valueCountsOf data').
Proof.
  intros same.
  assert (occurs : forall v, occurrences v data = occurrences v data').
  { intros v. unfold occurrences. f_equal. apply Permutation_length.
    clear -same. induction same as [|d l l' _ IH|d d' l|l l' l'' _ IH _ IH'];
      cbn [List.filter].
    - constructor.
    - destruct (sameValueZero v (value d)); [now constructor|exact IH].
    - destruct (sameValueZero v (value d)), (sameValueZero v (value d'));
        try reflexivity. apply perm_swap.
    - now rewrite IH. }
  split.
  - intros v. now rewrite !get_valueCountsOf, occurs.
  - destruct data as [|d data].
    { apply Permutation_nil_l in same as ->. reflexivity. }
    assert (data' <> []) as nonempty'.
    { intros ->. now apply Permutation_nil_r in same. }
    destruct (maxCount_highest (d :: data) ltac:(discriminate))
      as (mode & c & -> & entry & most).
    destruct (maxCount_highest data' nonempty')
      as (mode' & c' & -> & entry' & most').
    destruct (histogram_entries (d :: data)) as (entries & _).
    destruct (histogram_entries data') as (entries' & _).
    destruct (entries mode c entry) as [counts _].
    destruct (entries' mode' c' entry') as [counts' _].
    f_equal. apply Z.le_antisymm.
    + rewrite counts, occurs. apply most'.
    + rewrite counts', <- occurs. apply most.
Qed.

(** X16.  One reading is not enough: when at most one reading is left
    after the guards and the zero filter, [getDataAndDraw] draws nothing
    and raises "Not enough data available" with the mean of what is
    left, whatever the reading. *)
Theorem getDataAndDraw_needs_two_readings (Math_exp : F64.float -> F64.float)
    (fuel : nat) (fetched : option (list (SamplePoint F64.float)))
    (ignoreZero : bool) (data : list (SamplePoint F64.float)) :
  statisticsInput fetched ignoreZero = Returns data ->
  (length data <= 1)%nat ->
  getDataAndDraw Math_exp fuel fetched ignoreZero
  = Some (Throws (NotEnoughData
                    (Statistics.mean
                       (Statistics.calculateStatistics (f64_ops Math_exp)
                          data)))).
Proof.
  intros passed few. unfold getDataAndDraw. rewrite passed. cbv zeta.
  rewrite generateNormalDistributionData_small; [reflexivity|].
  destruct data as [|d [|d' data]]; [reflexivity|reflexivity|].
  cbn [length] in few. lia.
Qed.

End HistogramFacts.

Lemma getDataAndDraw_needs_two_readings_witness :
  ChartService.getDataAndDraw (fun x => x) 0 (Some Examples.oneZero) false
  = Some (Throws (NotEnoughData (F64.ofZ 0))).
Proof.
  rewrite (getDataAndDraw_needs_two_readings (fun x => x) 0
             (Some Examples.oneZero) false Examples.oneZero).
  - reflexivity.
  - reflexivity.
  - cbn. lia.
Defined.

Lemma valueCountsOf_histogram_witness :
  exists k,
    (k, Histogram.occurrences (F64.ofZ 5) Examples.threeFives)
    ∈ ChartService.valueCountsOf Examples.threeFives
    /\ ChartService.sameValueZero k (F64.ofZ 5) = true.
Proof.
  apply (proj1 (proj2 (valueCountsOf_histogram Examples.threeFives))
           {| time := 0; value := F64.ofZ 5 |}).
  apply list_elem_of_In. left. reflexivity.
Defined.

Lemma maxCount_is_mode_count_witness :
  exists d c,
    d ∈ Examples.threeFives
    /\ ChartService.maxCount (ChartService.valueCountsOf Examples.threeFives)
       = F64.ofZ c
    /\ c = Histogram.occurrences (value d) Examples.threeFives
    /\ (forall v, Histogram.occurrences v Examples.threeFives <= c)
    /\ 1 <= c <= Z.of_nat (length Examples.threeFives).
Proof.
  apply maxCount_is_mode_count. discriminate.
Defined.

Lemma valueCountsOf_order_independent_witness :
  ChartService.maxCount (ChartService.valueCountsOf (rev Examples.oneToFive))
  = ChartService.maxCount (ChartService.valueCountsOf Examples.oneToFive).
Proof.
  apply valueCountsOf_order_independent. symmetry. apply Permutation_rev.
Defined.

(** ** The sign of the deviation *)

Section DeviationFacts.

Variable Math_exp : F64.float -> F64.float.

(** [Math.sqrt] returns [NaN] or a number that is not below zero. *)
Lemma sqrt_not_negative (x : F64.float) :
  F64.ltb (F64.sqrt x) (F64.ofZ 0) = false.
Proof.
  unfold F64.sqrt, SFsqrt.
  destruct x as [s|s| |s m e].
  - now destruct s.
  - now destruct s.
  - reflexivity.
  - destruct s; [reflexivity|].
    destruct (SFsqrt_core_binary _ _ _ _) as [[mz ez] lz].
    unfold binary_round_aux.
    destruct (shr_fexp _ _ _ _ _) as [mrs' e'].
    destruct (shr_fexp _ _ _ _ _) as [mrs'' e''].
    destruct (shr_m mrs'') as [|m'|m']; try reflexivity.
    now destruct (_ <=? _).
Qed.

(** X22.  The deviation is never negative: whatever the readings,
    [calculateStatistics] returns a deviation that is [NaN] or not below
    zero, and so is the number [getDataAndDraw] returns when it
    returns one. *)
Theorem standardDeviation_not_negative
    (data : list (SamplePoint F64.float)) :
  F64.ltb
    (Statistics.standardDeviation
       (Statistics.calculateStatistics (f64_ops Math_exp) data))
    (F64.ofZ 0) = false
  /\ forall fuel fetched ignoreZero deviation,
       ChartService.getDataAndDraw Math_exp fuel fetched ignoreZero
       = Some (Returns deviation) ->
       F64.ltb deviation (F64.ofZ 0) = false.
Proof.
  split; [apply sqrt_not_negative|].
  intros fuel fetched ignoreZero deviation.
  unfold ChartService.getDataAndDraw.
  destruct (ChartService.statisticsInput fetched ignoreZero) as [kept|];
    [|discriminate].
  cbv zeta.
  destruct (Statistics.generateNormalDistributionData _ _ _ _ _ _ _)
    as [[|point curve]|]; try discriminate.
  intros [= <-]. apply sqrt_not_negative.
Qed.

End DeviationFacts.

Lemma standardDeviation_not_negative_witness :
  F64.ltb (F64.sqrt (F64.ofZ 2)) (F64.ofZ 0) = false.
Proof.
  refine (proj2 (standardDeviation_not_negative (fun x => x) [])
            30%nat (Some Examples.oneToFive) false _ _).
  vm_compute. reflexivity.
Defined.

(** ** Choosing the data source *)

Section IdentityFacts.

Import DataService Identity.

Variable sources : list DataSource.
Variable tags : list Tag.
Variable tagSlug : string.

(** X21.  The source chosen for a tag is never a guess: an id is
    returned only if it is not empty and is the source of a tag with
    the slug asked for, and a data source with that id is among the
    sources of the agent.  When no tag with the slug belongs to one of
    the sources, no source is chosen and [getAllRawMetrics] resolves to
    [null], whatever the backend holds. *)
Theorem selectSource_sound :
  (forall sourceId,
     selectSource sources tags tagSlug = Some sourceId ->
     sourceId <> EmptyString
     /\ exists tag source,
          tag ∈ tags /\ tag_slug tag = tagSlug /\ tag_sourceId tag = sourceId
          /\ source ∈ sources /\ source_publicId source = sourceId)
  /\ ((forall tag source,
         tag ∈ tags -> source ∈ sources -> tag_slug tag = tagSlug ->
         source_publicId source <> tag_sourceId tag) ->
      selectSource sources tags tagSlug = None
      /\ forall (backend : Backend F64.float) context pick factor decimals,
           metric context = Some tagSlug ->
           getAllRawMetrics (withSources backend sources tags) context pick
             factor decimals = Some (Returns None)).
Proof.
  split.
  - intros sourceId chosen. unfold selectSource in chosen. cbv zeta in chosen.
    destruct (find _ (List.filter _ tags)) as [tag|] eqn:found; [|discriminate].
    destruct (bool_decide (tag_sourceId tag = EmptyString)) eqn:blank;
      [discriminate|].
    injection chosen as <-.
    apply bool_decide_eq_false in blank. split; [exact blank|].
    apply find_some in found as [kept named].
    apply filter_In in kept as [member listed].
    apply bool_decide_eq_true in named.
    destruct (find _ sources) as [source|] eqn:owner; [|discriminate].
    apply find_some in owner as [inSources same].
    apply bool_decide_eq_true in same.
    exists tag, source. repeat split; auto; now apply list_elem_of_In.
  - intros foreign.
    assert (selectSource sources tags tagSlug = None) as none.
    { unfold selectSource. cbv zeta.
      destruct (find _ (List.filter _ tags)) as [tag|] eqn:found;
        [|reflexivity].
      exfalso.
      apply find_some in found as [kept named].
      apply filter_In in kept as [member listed].
      apply bool_decide_eq_true in named.
      destruct (find _ sources) as [source|] eqn:owner; [|discriminate].
      apply find_some in owner as [inSources same].
      apply bool_decide_eq_true in same.
      apply (foreign tag source); auto; now apply list_elem_of_In. }
    split; [exact none|].
    intros backend context pick factor decimals configured.
    unfold getAllRawMetrics. rewrite configured.
    cbn [resolve_source withSources]. now rewrite none.
Qed.

End IdentityFacts.

Lemma selectSource_sound_witness :
  Identity.selectSource [] [ {| Identity.tag_slug := "temperature";
                                Identity.tag_sourceId := "source" |} ]
    "temperature" = None.
Proof.
  refine (proj1 (proj2 (selectSource_sound [] _ "temperature") _)).
  intros tag source _ listed. now apply elem_of_nil in listed.
Defined.

(** ** The facts above on concrete backends *)

Lemma _fetchRawDataPage_recovers_witness :
  (DataService._fetchRawDataPage MoreExamples.flakyBackend Examples.window
     "source" "temperature" 0 DataService.queryLimit 3 0).2
  = Returns [Examples.point 10 7]
  /\ Trace.fetches
       (DataService._fetchRawDataPage MoreExamples.flakyBackend Examples.window
          "source" "temperature" 0 DataService.queryLimit 3 0).1 = 3%nat.
Proof.
  assert (valid : DataService.validWindow Examples.window)
    by (split; vm_compute; discriminate).
  destruct (_fetchRawDataPage_recovers MoreExamples.flakyBackend
              Examples.window valid "source" "temperature" 0
              DataService.queryLimit 2) as [call sends].
  - lia.
  - intros j below. destruct j as [|[|j]]; [reflexivity|reflexivity|lia].
  - discriminate.
  - rewrite call. split; [reflexivity|exact sends].
Defined.

Lemma _fetchRawDataPage_bounded_witness :
  Trace.fetches
    (DataService._fetchRawDataPage Examples.busyJsonBackend Examples.window
       "source" "temperature" 0 DataService.queryLimit 0 0).1 = 1%nat.
Proof.
  refine (proj1 (proj2 (_fetchRawDataPage_bounded Examples.busyJsonBackend
                          Examples.window "source" "temperature" 0
                          DataService.queryLimit 0 0)) _ _).
  - split; vm_compute; discriminate.
  - lia.
Defined.

Lemma _getAllRawMetrics_endless_witness :
  DataService._getAllRawMetrics MoreExamples.endlessBackend Examples.window
    1000 "source" ["temperature"] true 0 [] = None.
Proof.
  apply _getAllRawMetrics_endless.
  - split; vm_compute; discriminate.
  - intros request sent. eexists. split; [reflexivity|].
    now rewrite length_replicate, Z2Nat.id.
Defined.

Lemma _getAllRawMetricsParallel_empty_window_witness :
  DataService._getAllRawMetricsParallel
    (Trace.withPages Examples.noCountBackend
       (fun _ _ => Examples.ok [Examples.point 10 7]))
    Examples.window Examples.eager "source" "temperature" []
  = Some (Returns []).
Proof.
  rewrite (_getAllRawMetricsParallel_empty_window Examples.noCountBackend
             Examples.window Examples.eager "source" "temperature" []).
  - reflexivity.
  - reflexivity.
Defined.

Lemma _getAllRawMetricsParallel_order_independent_witness :
  DataService._getAllRawMetricsParallel Examples.pagedBackend Examples.window
    MoreExamples.settleFirst "source" "temperature" []
  = Some (Returns [Examples.point 1 5; Examples.point 2 2; Examples.point 2 2;
                   Examples.point 3 1; Examples.point 3 1]).
Proof.
  apply (_getAllRawMetricsParallel_order_independent Examples.pagedBackend
           Examples.window Examples.eager).
  vm_compute. reflexivity.
Defined.

Lemma _getAllRawMetricsParallel_fail_fast_witness :
  exists e,
    DataService._getAllRawMetricsParallel MoreExamples.brokenPageBackend
      Examples.window Examples.eager "source" "temperature" []
    = Some (Throws e).
Proof.
  apply (_getAllRawMetricsParallel_fail_fast MoreExamples.brokenPageBackend
           Examples.window Examples.eager "source" "temperature" []
           5001 1 SyntaxError).
  - reflexivity.
  - reflexivity.
  - vm_compute. lia.
  - vm_compute. reflexivity.
Defined.

Lemma strategies_part_on_hollow_pages_witness :
  DataService._getAllRawMetricsParallel MoreExamples.hollowBackend
    Examples.window Examples.eager "source" "temperature" []
  = Some (Returns [Examples.point 1 5])
  /\ DataService._getAllRawMetrics MoreExamples.hollowBackend Examples.window
       1 "source" ["temperature"] true 0 []
     = Some (Throws TypeError).
Proof.
  apply (strategies_part_on_hollow_pages MoreExamples.hollowBackend
           Examples.window Examples.eager "source" "temperature" 3
           (Some (Examples.point 1 5)) 0).
  - split; vm_compute; discriminate.
  - intros request sent. exists None. split; reflexivity.
  - reflexivity.
  - discriminate.
  - reflexivity.
Defined.

Lemma sortByTime_stable_witness :
  DataService.sortByTime [Examples.point 10 7; Examples.point 20 8]
  = [Examples.point 10 7; Examples.point 20 8].
Proof.
  apply sortByTime_stable.
  repeat constructor. vm_compute. discriminate.
Defined.
